(** * tcp-chat: the server loop of [main.go] and its abuse-control state machine

    The goroutine [server] owns two maps, [clients] and [bannedClients], and
    consumes one [Message] at a time from an unbuffered channel.  One
    iteration of its [for] loop is embedded below as the function
    [serverStep]: it takes the state before the iteration, the received
    message and the readings that [time.Now()] returns during the iteration,
    and gives the state after it together with the calls made on connections
    and on the logger, in program order. *)

From Stdlib Require Import ZArith DecimalString.
From stdpp Require Import gmap strings list fin_maps.

Local Open Scope string_scope.
Local Open Scope list_scope.
Local Open Scope Z_scope.

(** ** The parts of Go's [time] package the server uses *)

Module time.

(** [time.Duration] is an [int64] count of nanoseconds. *)
Definition minDuration : Z := - 2 ^ 63.
Definition maxDuration : Z := 2 ^ 63 - 1.
Definition Second : Z := 1000000000.

(** [Time.Sub] and [subMono] return the difference, or [maxDuration] /
    [minDuration] when the difference does not fit a [Duration]. *)
Definition saturate (d : Z) : Z :=
  if d <? minDuration then minDuration
  else if maxDuration <? d then maxDuration
  else d.

(** A [time.Time] carries a wall-clock instant, here the nanoseconds since
    the zero instant January 1, year 1, 00:00:00 UTC, and optionally a
    monotonic-clock reading in nanoseconds. *)
Record Time : Type := mkTime { wall : Z; mono : option Z }.

(** The zero value [time.Time{}], which a [Client] literal without a
    [LastMessage] field holds: no monotonic reading. *)
Definition zero : Time := {| wall := 0; mono := None |}.

(** What the operating system's two clocks show when [time.Now()] is
    called. *)
Record Reading : Type := mkReading { r_wall : Z; r_mono : Z }.

(** [time.Now()] always attaches the monotonic reading. *)
Definition Now (r : Reading) : Time :=
  {| wall := r_wall r; mono := Some (r_mono r) |}.

(** [t.Sub(u)]: when both operands have a monotonic reading the wall clock
    is ignored, otherwise the wall-clock instants are subtracted. *)
Definition Sub (t u : Time) : Z :=
  match mono t, mono u with
  | Some a, Some b => saturate (a - b)
  | _, _ => saturate (wall t - wall u)
  end.

(** [d.Seconds() >= s] and [d.Seconds() < s] for a [float64] constant [s]
    that is a whole number of seconds (5.0 and 1.0 in this program).
    [Seconds] returns [float64(d/Second) + float64(d%Second)/1e9]; the
    first summand is exact, the second lies strictly between -1 and 1 and
    the sum is rounded monotonically, so for the two small constants the
    comparison on floats agrees with the comparison on nanoseconds. *)
Definition Seconds_ge (d s : Z) : bool := s * Second <=? d.
Definition Seconds_lt (d s : Z) : bool := d <? s * Second.

(** The wall-clock instant of the Unix epoch, in nanoseconds since the zero
    instant.  The system's real-time clock, from which [time.Now()] is
    built, counts from here. *)
Definition unixEpoch : Z := 62135596800 * Second.

Definition afterUnixEpoch (r : Reading) : Prop := unixEpoch <= r_wall r.

End time.

(** ** Data of [main.go] *)

(** [const ( TimeoutDuration float64 = 5.0; MessageDebounce float64 = 1.0 )],
    in whole seconds. *)
Definition TimeoutDuration : Z := 5.
Definition MessageDebounce : Z := 1.

(** [type MessageType int] with [ClientConnected = iota + 1],
    [ClientDisconnected], [NewMessage]; the program builds no other value. *)
Inductive MessageType : Type :=
| ClientConnected
| ClientDisconnected
| NewMessage.

(** A [net.Conn]: the identity of the socket and what [RemoteAddr().String()]
    returns for it.  Two sockets may show the same remote address (one after
    the other). *)
Record net_Conn : Type := mkConn { fd : nat; RemoteAddr : string }.

Record Message : Type := mkMessage {
  mType : MessageType;
  mConn : net_Conn;
  mText : string
}.

Record Client : Type := mkClient {
  Conn : net_Conn;
  LastMessage : time.Time;
  TimedOut : bool;
  Strikes : Z
}.

(** [Strikes] is a Go [int]: 64 bits, two's complement, wrapping. *)
Definition wrap_int (z : Z) : Z := (z + 2 ^ 63) mod 2 ^ 64 - 2 ^ 63.

(** [strconv.Itoa]. *)
Definition Itoa (z : Z) : string := NilEmpty.string_of_int (Z.to_int z).

(** The two local maps of [server].  Each [*Client] is referenced from one
    slot of [clients] and, during an iteration, from the local [client]; so a
    write through [client] is a write to that slot, and the slot is modelled
    as holding the record. *)
Record ServerState : Type := mkState {
  clients : gmap string Client;
  bannedClients : gmap string bool
}.

Definition initial : ServerState := {| clients := ∅; bannedClients := ∅ |}.

(** What an iteration does to the outside: calls on connections and on the
    standard logger, with the bytes or the formatted line. *)
Inductive Effect : Type :=
| ConnClose (c : net_Conn)
| ConnWrite (c : net_Conn) (bytes : string)
| LogPrintf (line : string).

(** [_, isBanned := bannedClients[addr]]. *)
Definition isBanned (st : ServerState) (addr : string) : bool :=
  bool_decide (is_Some (bannedClients st !! addr)).

Definition setClients (st : ServerState) (m : gmap string Client) : ServerState :=
  {| clients := m; bannedClients := bannedClients st |}.

Definition setTimedOut (c : Client) (b : bool) : Client :=
  {| Conn := Conn c; LastMessage := LastMessage c; TimedOut := b; Strikes := Strikes c |}.

Definition setLastMessage (c : Client) (t : time.Time) : Client :=
  {| Conn := Conn c; LastMessage := t; TimedOut := TimedOut c; Strikes := Strikes c |}.

Definition setStrikes (c : Client) (n : Z) : Client :=
  {| Conn := Conn c; LastMessage := LastMessage c; TimedOut := TimedOut c; Strikes := n |}.

Section Server.

(** [Sprintf_f r] is the text [fmt.Sprintf("%f", TimeoutDuration -
    passedTime.Seconds())], as a function of the same quantity [r] in
    nanoseconds; the digits depend on floating-point rounding and are left
    open. *)
Variable Sprintf_f : Z -> string.

(** Lines 114-119: the accepted message.  The [range] over the map visits
    every entry once, in an order Go leaves open; the list below has the
    order of [map_to_list]. *)
Definition broadcastStage (st : ServerState) (addr : string) (client : Client)
    (text : string) (now' : time.Reading) : ServerState * list Effect :=
  let client := setLastMessage client (time.Now now') in
  let st := setClients st (<[addr := client]> (clients st)) in
  (st,
   LogPrintf ("Info: send message " +:+ text +:+ " by " +:+ addr)
     :: ((λ kv : string * Client, ConnWrite (Conn kv.2) text) <$> map_to_list (clients st))).

(** Lines 95-119, entered with the record as the timeout stage left it. *)
Definition debounceStage (st : ServerState) (addr : string) (client : Client)
    (passedTime : Z) (text : string) (now' : time.Reading) : ServerState * list Effect :=
  if time.Seconds_lt passedTime MessageDebounce then
    let client := setStrikes client (wrap_int (Strikes client + 1)) in
    if 3 <=? Strikes client then
      ({| clients := delete addr (clients st);
          bannedClients := <[addr := true]> (bannedClients st) |},
       [ConnWrite (Conn client) "you are banned. bye bye"; ConnClose (Conn client)])
    else
      let client := setLastMessage (setTimedOut client true) (time.Now now') in
      (setClients st (<[addr := client]> (clients st)),
       [LogPrintf ("Info: timeout client " +:+ addr +:+ " for 5.000000. number strikes: "
                     +:+ Itoa (Strikes client));
        ConnWrite (Conn client)
          ("Strike number " +:+ Itoa (Strikes client) +:+ ". You are timed out. Wait for "
             +:+ Itoa TimeoutDuration)])
  else broadcastStage st addr client text now'.

(** One iteration of the [for] loop of [server]: [message] is what the
    channel delivered, [now] is the reading of line 80 and [now'] the
    reading of line 109 or 114. *)
Definition serverStep (st : ServerState) (message : Message)
    (now now' : time.Reading) : ServerState * list Effect :=
  let addr := RemoteAddr (mConn message) in
  match mType message with
  | ClientConnected =>
      if isBanned st addr then (st, [ConnClose (mConn message)])
      else
        (setClients st
           (<[addr := {| Conn := mConn message; LastMessage := time.zero;
                         TimedOut := false; Strikes := 0 |}]> (clients st)),
         [ConnWrite (mConn message) "Welcome to the box";
          LogPrintf ("Client " +:+ addr +:+ " connected")])
  | ClientDisconnected =>
      (setClients st (delete addr (clients st)),
       [LogPrintf ("Client " +:+ addr +:+ " disconnected")])
  | NewMessage =>
      match clients st !! addr with
      | None =>
          (st, [ConnClose (mConn message);
                LogPrintf ("Error: client with address: " +:+ addr +:+ " does not exist")])
      | Some client =>
          let passedTime := time.Sub (time.Now now) (LastMessage client) in
          if TimedOut client then
            if time.Seconds_ge passedTime TimeoutDuration then
              let r := debounceStage st addr (setTimedOut client false)
                         passedTime (mText message) now' in
              (r.1, LogPrintf ("Info: unban client " +:+ addr) :: r.2)
            else
              (st, [LogPrintf ("Info: client " +:+ addr +:+ " still banned");
                    ConnWrite (Conn client)
                      ("You are timed out. Chill for "
                         +:+ Sprintf_f (TimeoutDuration * time.Second - passedTime)
                         +:+ " Seconds")])
          else debounceStage st addr client passedTime (mText message) now'
      end
  end.

(** What the loop receives in one iteration. *)
Record Input : Type := mkInput {
  in_msg : Message;
  in_now : time.Reading;
  in_now' : time.Reading
}.

Definition step (st : ServerState) (i : Input) : ServerState :=
  (serverStep st (in_msg i) (in_now i) (in_now' i)).1.

(** The state after the loop has consumed [tr], oldest input first. *)
Definition exec_from (st : ServerState) (tr : list Input) : ServerState :=
  fold_left step tr st.

Definition exec (tr : list Input) : ServerState := exec_from initial tr.

(** Everything the loop has done to the outside while consuming [tr]. *)
Fixpoint effects_from (st : ServerState) (tr : list Input) : list Effect :=
  match tr with
  | [] => []
  | i :: tr =>
      (serverStep st (in_msg i) (in_now i) (in_now' i)).2 ++ effects_from (step st i) tr
  end.

End Server.

(** The invariant of the loop that keeps the two maps apart. *)
Definition separated (st : ServerState) : Prop :=
  ∀ a, is_Some (clients st !! a) → bannedClients st !! a = None.

(** The counter of a record in [clients] is 0, 1 or 2. *)
Definition strikesBounded (st : ServerState) : Prop :=
  ∀ (a : string) (cl : Client), clients st !! a = Some cl → 0 <= Strikes cl <= 2.

(** The path condition of line 96: the timeout stage let the message through
    (flag clear, or flag set and [passedTime.Seconds() >= TimeoutDuration])
    and [passedTime.Seconds() < MessageDebounce]. *)
Definition debounceViolation (client : Client) (passedTime : Z) : bool :=
  (negb (TimedOut client) || time.Seconds_ge passedTime TimeoutDuration)
  && time.Seconds_lt passedTime MessageDebounce.


(** ** The reader [handleClient] and the acceptor [main]

    Both run beside [server] and talk to it only through the unbuffered
    channel [messages].  Each is embedded as a function of what its blocking
    calls return ([conn.Read], [ln.Accept]), giving what it does, in program
    order. *)

(** A Go [error] as the reader tells them apart: [io.EOF] or anything else. *)
Inductive error : Type :=
| io_EOF
| other_error (text : string).

(** What one goroutine does to the outside. *)
Inductive Action : Type :=
| SlogError (msg : string) (err : error)
| Do (e : Effect)
| Send (m : Message)
| Go_server
| Go_handleClient (c : net_Conn)
| Exit (code : Z).

(** What one call [conn.Read(buffer)] does: it copies [rr_bytes] to the
    front of the buffer and returns the count [rr_n] and [rr_err]. *)
Record ReadResult : Type := mkRead {
  rr_bytes : list Ascii.ascii;
  rr_n : Z;
  rr_err : option error
}.

(** The contract of [io.Reader]: the count is the number of bytes copied and
    is at most the length of the buffer. *)
Definition readContract (size : nat) (r : ReadResult) : Prop :=
  rr_n r = Z.of_nat (length (rr_bytes r)) ∧ (length (rr_bytes r) ≤ size)%nat.

(** [make([]byte, 256)]. *)
Definition bufferSize : nat := 256.

(** The buffer after a read: the bytes of the read, then what was there. *)
Definition overwrite (buffer data : list Ascii.ascii) : list Ascii.ascii :=
  take (length buffer) data ++ drop (length data) buffer.

(** Where a goroutine stands when the calls it was given are used up. *)
Inductive Status : Type :=
| Blocked
| Returned
| Panicked.

(** The [for] loop of [handleClient], lines 126-155.  [buffer[:bytes]]
    panics when [bytes] is outside [0 .. cap(buffer)]. *)
Fixpoint handleClient_loop (conn : net_Conn) (buffer : list Ascii.ascii)
    (reads : list ReadResult) : list Action * Status :=
  match reads with
  | [] => ([], Blocked)
  | r :: reads =>
      let buffer := overwrite buffer (rr_bytes r) in
      match rr_err r with
      | Some (other_error e) =>
          ([SlogError "Error in reading client message" (other_error e);
            Do (ConnClose conn);
            Send {| mType := ClientDisconnected; mConn := conn; mText := "" |}],
           Returned)
      | Some io_EOF =>
          ([Do (ConnClose conn);
            Send {| mType := ClientDisconnected; mConn := conn; mText := "" |}],
           Returned)
      | None =>
          if bool_decide (0 <= rr_n r <= Z.of_nat (length buffer)) then
            let text := String.string_of_list_ascii (take (Z.to_nat (rr_n r)) buffer) in
            let rest := handleClient_loop conn buffer reads in
            (Send {| mType := NewMessage; mConn := conn; mText := text |} :: rest.1,
             rest.2)
          else ([], Panicked)
      end
  end.

Definition handleClient (conn : net_Conn) (reads : list ReadResult)
    : list Action * Status :=
  handleClient_loop conn (replicate bufferSize Ascii.zero) reads.




(** The messages a goroutine hands to the channel, in order. *)
Definition sent (acts : list Action) : list Message :=
  omap (λ a, match a with Send m => Some m | _ => None end) acts.

(** The successful reads before the first failing one. *)
Fixpoint goodReads (reads : list ReadResult) : list ReadResult :=
  match reads with
  | [] => []
  | r :: reads => match rr_err r with None => r :: goodReads reads | Some _ => [] end
  end.

(** The message a successful read is turned into, and the last message of
    a reader. *)
Definition newMessageOf (conn : net_Conn) (r : ReadResult) : Message :=
  {| mType := NewMessage; mConn := conn;
     mText := String.string_of_list_ascii (rr_bytes r) |}.

Definition disconnectedOf (conn : net_Conn) : Message :=
  {| mType := ClientDisconnected; mConn := conn; mText := "" |}.


(** What a reader does when a read fails, lines 129-147. *)
Definition farewell (conn : net_Conn) (err : error) : list Action :=
  match err with
  | io_EOF => [Do (ConnClose conn); Send (disconnectedOf conn)]
  | other_error e =>
      [SlogError "Error in reading client message" (other_error e);
       Do (ConnClose conn); Send (disconnectedOf conn)]
  end.


(** The inputs of the loop of [server] for a list of messages, given the
    clock readings of the iterations that receive them. *)
Definition withClocks (msgs : list Message)
    (clocks : list (time.Reading * time.Reading)) : list Input :=
  zip_with (λ m c, {| in_msg := m; in_now := c.1; in_now' := c.2 |}) msgs clocks.

(** ** Counting and ordering inputs of a history *)

Definition fromAddr (a : string) (i : Input) : bool :=
  bool_decide (RemoteAddr (mConn (in_msg i)) = a).

Definition isNewMessage (i : Input) : bool :=
  match mType (in_msg i) with NewMessage => true | _ => false end.

Definition isConnected (i : Input) : bool :=
  match mType (in_msg i) with ClientConnected => true | _ => false end.

(** The number of [NewMessage] inputs of [tr] from the address [a]. *)
Fixpoint messagesFrom (a : string) (tr : list Input) : Z :=
  match tr with
  | [] => 0
  | i :: tr =>
      (if fromAddr a i && isNewMessage i then 1 else 0) + messagesFrom a tr
  end.

(** The path condition of line 114: neither stage stopped the message. *)
Definition reachesBroadcast (client : Client) (passedTime : Z) : bool :=
  (negb (TimedOut client) || time.Seconds_ge passedTime TimeoutDuration)
  && negb (time.Seconds_lt passedTime MessageDebounce).

(** The monotonic clock does not run backwards: every reading of [tr], in
    the order the loop takes them, is at least [t] and the one before. *)
Fixpoint clockOrderedFrom (t : Z) (tr : list Input) : Prop :=
  match tr with
  | [] => True
  | i :: tr =>
      t <= time.r_mono (in_now i) ∧
      time.r_mono (in_now i) <= time.r_mono (in_now' i) ∧
      clockOrderedFrom (time.r_mono (in_now' i)) tr
  end.

(** The inputs of [tr] from the address [a] are [NewMessage]s, the first
    one not within [MessageDebounce] of [last] and each next one not within
    [MessageDebounce] of the time stamp taken for the one before. *)
Fixpoint polite (a : string) (last : time.Time) (tr : list Input) : Prop :=
  match tr with
  | [] => True
  | i :: tr =>
      if fromAddr a i then
        mType (in_msg i) = NewMessage ∧
        time.Seconds_lt (time.Sub (time.Now (in_now i)) last) MessageDebounce = false ∧
        polite a (time.Now (in_now' i)) tr
      else polite a last tr
  end.

(** No input of [tr] is a [ClientConnected] from the address [a]. *)
Definition noReconnect (a : string) (tr : list Input) : Prop :=
  ∀ k : Input, k ∈ tr → RemoteAddr (mConn (in_msg k)) = a →
               mType (in_msg k) ≠ ClientConnected.

(** The time stamp of the record of [a] was taken at or after [lo] and at or
    before [hi]. *)
Definition stampedBetween (a : string) (lo hi : Z) (st : ServerState) : Prop :=
  ∀ cl : Client, clients st !! a = Some cl →
    ∃ r : time.Reading, LastMessage cl = time.Now r ∧ lo <= time.r_mono r <= hi.

(** The record of [a] is timed out since a reading at or after [lo], or it
    is not timed out and the clock has reached [lo] plus [TimeoutDuration]. *)
Definition servingTimeout (a : string) (lo hi : Z) (st : ServerState) : Prop :=
  ∀ cl : Client, clients st !! a = Some cl →
    (TimedOut cl = true ∧
     ∃ r : time.Reading, LastMessage cl = time.Now r ∧ lo <= time.r_mono r)
    ∨ (TimedOut cl = false ∧ lo + TimeoutDuration * time.Second <= hi).

(** What an address has used up of its three strikes. *)
Definition strikeCredit (st : ServerState) (a : string) : Z :=
  match bannedClients st !! a with
  | Some _ => 3
  | None => match clients st !! a with Some cl => Strikes cl | None => 0 end
  end.

(** ** A sample run

    One history of the loop, used to run the embedding: two clients connect,
    and the first one is struck three times.  Times are in milliseconds after
    the start of the process; the second reading of an iteration is taken 5
    microseconds after the first. *)

Module Sample.

(** A stand-in for the ["%f"] verb: seconds with six decimals, cut off. *)
Definition pad6 (s : string) : string :=
  String.concat "" (replicate (6 - String.length s)%nat "0") +:+ s.

Definition Sprintf_f (r : Z) : string :=
  Itoa (Z.quot r time.Second) +:+ "."
    +:+ pad6 (Itoa (Z.quot (Z.abs (Z.rem r time.Second)) 1000)).

(** The clocks at [us] microseconds after the start of the process, which
    is started on October 30, 2026, one hour after the machine. *)
Definition clockAt (us : Z) : time.Reading :=
  {| time.r_wall := time.unixEpoch + 1793318400 * time.Second + us * 1000;
     time.r_mono := 3600 * time.Second + us * 1000 |}.

Definition connX : net_Conn := {| fd := 7; RemoteAddr := "203.0.113.5:40000" |}.
Definition connY : net_Conn := {| fd := 8; RemoteAddr := "198.51.100.9:51000" |}.
(** A later socket from the address of [connX]. *)
Definition connX' : net_Conn := {| fd := 9; RemoteAddr := "203.0.113.5:40000" |}.

Definition at_ms (ty : MessageType) (c : net_Conn) (text : string) (ms : Z) : Input :=
  {| in_msg := {| mType := ty; mConn := c; mText := text |};
     in_now := clockAt (ms * 1000);
     in_now' := clockAt (ms * 1000 + 5) |}.

Definition history : list Input :=
  [ at_ms ClientConnected connX "" 0;
    at_ms ClientConnected connY "" 10;
    at_ms NewMessage connX "hi" 1000;
    at_ms NewMessage connX "yo" 1200;
    at_ms NewMessage connX "again" 1500;
    at_ms NewMessage connX "final" 7000;
    at_ms NewMessage connX "fast" 7300;
    at_ms NewMessage connX "ok" 13000;
    at_ms NewMessage connX "spam" 13100 ].

(** The state after the first [n] inputs of [history]. *)
Definition after (n : nat) : ServerState := exec Sprintf_f (take n history).

Definition recordX (lastMessage_ms : Z) (timedOut : bool) (strikes : Z) : Client :=
  {| Conn := connX; LastMessage := time.Now (clockAt (lastMessage_ms * 1000 + 5));
     TimedOut := timedOut; Strikes := strikes |}.

End Sample.

(** More inputs for the sample run: what the sockets deliver. *)

Module SampleIO.

Definition bytes (text : string) : list Ascii.ascii := String.list_ascii_of_string text.

Definition readOk (text : string) : ReadResult :=
  {| rr_bytes := bytes text; rr_n := Z.of_nat (String.length text); rr_err := None |}.

(** The peer of [connX] sends "hi" and "yo"; the third read brings two more
    bytes together with [io.EOF]. *)
Definition readsX : list ReadResult :=
  [ readOk "hi"; readOk "yo";
    {| rr_bytes := bytes "zz"; rr_n := 2; rr_err := Some io_EOF |};
    readOk "never" ].

(** The peer of [connY] sends "hello" and resets the connection. *)
Definition readsY : list ReadResult :=
  [ readOk "hello";
    {| rr_bytes := []; rr_n := 0; rr_err := Some (other_error "connection reset by peer") |} ].


(** [connY] talks once a second while [connX] talks in between. *)
Definition chat : list Input :=
  [ Sample.at_ms NewMessage Sample.connY "a" 1000;
    Sample.at_ms NewMessage Sample.connX "hi" 1100;
    Sample.at_ms NewMessage Sample.connY "b" 2100 ].

Definition recordY : Client :=
  {| Conn := Sample.connY; LastMessage := time.zero; TimedOut := false; Strikes := 0 |}.

End SampleIO.

(** ** Properties *)

Lemma Seconds_ge_not_lt (d : Z) :
  time.Seconds_ge d TimeoutDuration = true → time.Seconds_lt d MessageDebounce = false.
Proof.
  unfold time.Seconds_ge, time.Seconds_lt, TimeoutDuration, MessageDebounce, time.Second.
  intros H. apply Z.leb_le in H. apply Z.ltb_ge. lia.
Qed.

Lemma Sub_zero (now : time.Reading) :
  time.afterUnixEpoch now →
  time.Seconds_lt (time.Sub (time.Now now) time.zero) MessageDebounce = false.
Proof.
  destruct now as [w m].
  unfold time.afterUnixEpoch, time.Sub, time.saturate, time.Seconds_lt. simpl.
  rewrite Z.sub_0_r. intros H.
  assert (time.unixEpoch = 62135596800000000000) as E1 by reflexivity.
  assert (time.minDuration = -9223372036854775808) as E2 by reflexivity.
  assert (time.maxDuration = 9223372036854775807) as E3 by reflexivity.
  assert (MessageDebounce * time.Second = 1000000000) as E4 by reflexivity.
  rewrite E4.
  destruct (Z.ltb_spec w time.minDuration); [lia |].
  destruct (Z.ltb_spec time.maxDuration w); apply Z.ltb_ge; lia.
Qed.

Section Properties.

Variable Sprintf_f : Z -> string.


Lemma exec_from_snoc (st : ServerState) (tr : list Input) (i : Input) :
  exec_from Sprintf_f st (tr ++ [i]) = step Sprintf_f (exec_from Sprintf_f st tr) i.
Proof. unfold exec_from. by rewrite fold_left_app. Qed.

Lemma exec_from_cons (st : ServerState) (tr : list Input) (i : Input) :
  exec_from Sprintf_f st (i :: tr) = exec_from Sprintf_f (step Sprintf_f st i) tr.
Proof. reflexivity. Qed.

Lemma exec_from_app (st : ServerState) (tr1 tr2 : list Input) :
  exec_from Sprintf_f st (tr1 ++ tr2) = exec_from Sprintf_f (exec_from Sprintf_f st tr1) tr2.
Proof. unfold exec_from. by rewrite fold_left_app. Qed.

(** Unfold one iteration and split on every test it makes. *)
Ltac step_cases :=
  unfold step, serverStep, debounceStage, broadcastStage, setClients, isBanned;
  repeat (case_match; simpl in *; simplify_eq; try done).

(** The ban map only grows: an iteration leaves it alone or adds the
    address of the message. *)
Lemma step_banned (st : ServerState) (i : Input) :
  bannedClients (step Sprintf_f st i) = bannedClients st
  ∨ bannedClients (step Sprintf_f st i) = <[RemoteAddr (mConn (in_msg i)) := true]> (bannedClients st).
Proof. step_cases; auto. Qed.

Lemma step_banned_mono (st : ServerState) (i : Input) (a : string) :
  is_Some (bannedClients st !! a) → is_Some (bannedClients (step Sprintf_f st i) !! a).
Proof.
  intros H. destruct (step_banned st i) as [-> | ->]; [done |].
  rewrite lookup_insert. case_decide; [by eexists | done].
Qed.

Lemma exec_from_banned_mono (st : ServerState) (tr : list Input) (a : string) :
  is_Some (bannedClients st !! a) → is_Some (bannedClients (exec_from Sprintf_f st tr) !! a).
Proof.
  revert st. induction tr as [| i tr IH]; intros st H; [done |].
  rewrite exec_from_cons. apply IH. by apply step_banned_mono.
Qed.

Lemma step_separated (st : ServerState) (i : Input) :
  separated st → separated (step Sprintf_f st i).
Proof.
  unfold separated. intros Hsep a.
  destruct i as [[ty c text] now now']. simpl.
  pose proof (Hsep a) as Ha.
  step_cases; intros Hs.
  - destruct (decide (RemoteAddr c = a)) as [<- | Hne].
    + match goal with
      | H : bool_decide _ = false |- _ => apply bool_decide_eq_false in H
      end.
      by apply eq_None_not_Some.
    + rewrite lookup_insert_ne in Hs by done. auto.
  - apply Ha. rewrite lookup_delete in Hs. case_decide; [by destruct Hs | done].
  - rewrite lookup_delete in Hs. case_decide; [by destruct Hs |].
    rewrite lookup_insert_ne by done. auto.
  - destruct (decide (RemoteAddr c = a)) as [<- | Hne]; [apply Ha; by eexists |].
    rewrite lookup_insert_ne in Hs by done. auto.
  - destruct (decide (RemoteAddr c = a)) as [<- | Hne]; [apply Ha; by eexists |].
    rewrite lookup_insert_ne in Hs by done. auto.
  - rewrite lookup_delete in Hs. case_decide; [by destruct Hs |].
    rewrite lookup_insert_ne by done. auto.
  - destruct (decide (RemoteAddr c = a)) as [<- | Hne]; [apply Ha; by eexists |].
    rewrite lookup_insert_ne in Hs by done. auto.
  - destruct (decide (RemoteAddr c = a)) as [<- | Hne]; [apply Ha; by eexists |].
    rewrite lookup_insert_ne in Hs by done. auto.
Qed.

Lemma exec_separated (tr : list Input) : separated (exec Sprintf_f tr).
Proof.
  induction tr as [| i tr IH] using rev_ind.
  - intros a [c Hc]. simpl in Hc. by rewrite lookup_empty in Hc.
  - unfold exec. rewrite exec_from_snoc. by apply step_separated.
Qed.

(** C1: an address that is in [bannedClients] stays there whatever the loop
    consumes afterwards, and every later [ClientConnected] message whose
    connection has that remote address only closes the connection: the two
    maps are unchanged and nothing else is done. *)
Theorem ban_is_absorbing (st : ServerState) (tr : list Input) (a : string) :
  is_Some (bannedClients st !! a) →
  is_Some (bannedClients (exec_from Sprintf_f st tr) !! a) ∧
  ∀ (c : net_Conn) (text : string) (now now' : time.Reading),
    RemoteAddr c = a →
    serverStep Sprintf_f (exec_from Sprintf_f st tr) (mkMessage ClientConnected c text) now now'
    = (exec_from Sprintf_f st tr, [ConnClose c]).
Proof.
  intros Hb. pose proof (exec_from_banned_mono st tr a Hb) as Hb'.
  split; [done |]. intros c text now now' <-.
  unfold serverStep, isBanned. simpl.
  by rewrite bool_decide_eq_true_2.
Qed.

(** C7: in every state the loop can reach from its start, no key of
    [clients] is a key of [bannedClients], and [clients] lists every
    address once. *)
Theorem clients_apart_from_banned (tr : list Input) :
  (∀ (a : string) (c : Client),
     clients (exec Sprintf_f tr) !! a = Some c → bannedClients (exec Sprintf_f tr) !! a = None) ∧
  NoDup (map_to_list (clients (exec Sprintf_f tr))).*1.
Proof.
  split.
  - intros a c Hc. apply (exec_separated tr). by eexists.
  - apply NoDup_fst_map_to_list.
Qed.

(** C9: a [ClientDisconnected] message deletes the record under the
    connection's remote address and only logs; when there was no record the
    state is the same as before.  Afterwards the address has no record, and
    a [NewMessage] from a connection with that address closes that
    connection, logs the error and leaves the state as it is. *)
Theorem disconnect_cleanup (st : ServerState) (c : net_Conn) (text : string)
    (now now' : time.Reading) :
  let r := serverStep Sprintf_f st (mkMessage ClientDisconnected c text) now now' in
  clients r.1 = delete (RemoteAddr c) (clients st) ∧
  bannedClients r.1 = bannedClients st ∧
  r.2 = [LogPrintf ("Client " +:+ RemoteAddr c +:+ " disconnected")] ∧
  (clients st !! RemoteAddr c = None → r.1 = st) ∧
  clients r.1 !! RemoteAddr c = None ∧
  ∀ (c2 : net_Conn) (text2 : string) (n n' : time.Reading),
    RemoteAddr c2 = RemoteAddr c →
    serverStep Sprintf_f r.1 (mkMessage NewMessage c2 text2) n n'
    = (r.1, [ConnClose c2;
             LogPrintf ("Error: client with address: " +:+ RemoteAddr c
                          +:+ " does not exist")]).
Proof.
  simpl. repeat split.
  - intros Hn. destruct st as [cl bn]. unfold setClients. simpl in *.
    by rewrite delete_id.
  - apply lookup_delete_eq.
  - intros c2 text2 n n' E. unfold serverStep. simpl.
    rewrite E, lookup_delete_eq. done.
Qed.

(** Lines 88-91: the message of a client that is still timed out. *)
Lemma timed_out_step (st : ServerState) (c : net_Conn) (text : string)
    (now now' : time.Reading) (client : Client) :
  clients st !! RemoteAddr c = Some client →
  TimedOut client = true →
  time.Seconds_ge (time.Sub (time.Now now) (LastMessage client)) TimeoutDuration = false →
  serverStep Sprintf_f st (mkMessage NewMessage c text) now now'
  = (st,
     [LogPrintf ("Info: client " +:+ RemoteAddr c +:+ " still banned");
      ConnWrite (Conn client)
        ("You are timed out. Chill for "
           +:+ Sprintf_f (TimeoutDuration * time.Second
                          - time.Sub (time.Now now) (LastMessage client))
           +:+ " Seconds")]).
Proof.
  intros Hc Ht Hp. unfold serverStep. simpl.
  by rewrite Hc, Ht, Hp.
Qed.

(** C8: a [NewMessage] from a client whose record is flagged [TimedOut] and
    whose last time stamp is less than [TimeoutDuration] old changes
    neither map (so no field of any record), and its only output is a log
    line and one write, to that client, of the notice with the remaining
    wait [TimeoutDuration - passedTime]: the text goes to nobody. *)
Theorem still_timed_out_frame (st : ServerState) (c : net_Conn) (text : string)
    (now now' : time.Reading) (client : Client) :
  clients st !! RemoteAddr c = Some client →
  TimedOut client = true →
  time.Seconds_ge (time.Sub (time.Now now) (LastMessage client)) TimeoutDuration = false →
  serverStep Sprintf_f st (mkMessage NewMessage c text) now now'
  = (st,
     [LogPrintf ("Info: client " +:+ RemoteAddr c +:+ " still banned");
      ConnWrite (Conn client)
        ("You are timed out. Chill for "
           +:+ Sprintf_f (TimeoutDuration * time.Second
                          - time.Sub (time.Now now) (LastMessage client))
           +:+ " Seconds")]).
Proof. apply timed_out_step. Qed.

(** The broadcast stage writes the text to every record of the map it
    leaves behind. *)
Lemma broadcastStage_spec (st : ServerState) (addr : string) (client : Client)
    (text : string) (now' : time.Reading) :
  let r := broadcastStage st addr client text now' in
  clients r.1 = <[addr := setLastMessage client (time.Now now')]> (clients st) ∧
  bannedClients r.1 = bannedClients st ∧
  r.2 = LogPrintf ("Info: send message " +:+ text +:+ " by " +:+ addr)
          :: ((λ kv : string * Client, ConnWrite (Conn kv.2) text)
                <$> map_to_list (clients r.1)).
Proof. done. Qed.

Lemma broadcast_writes_mem (m : gmap string Client) (text : string) (e : Effect) :
  e ∈ (λ kv : string * Client, ConnWrite (Conn kv.2) text) <$> map_to_list m
  ↔ ∃ a cl, m !! a = Some cl ∧ e = ConnWrite (Conn cl) text.
Proof.
  rewrite list_elem_of_fmap. split.
  - intros [[a cl] [-> Hin]]. apply elem_of_map_to_list in Hin. by exists a, cl.
  - intros (a & cl & Hm & ->). exists (a, cl). split; [done |].
    by apply elem_of_map_to_list.
Qed.

(** C6: when a [NewMessage] passes the timeout stage and the debounce
    stage, the sender's record gets the reading of [time.Now()] as
    [LastMessage], and apart from log lines the output is one write of the
    unchanged text per record of [clients], the sender's record among them. *)
Theorem accepted_message_is_broadcast (st : ServerState) (c : net_Conn) (text : string)
    (now now' : time.Reading) (client : Client) :
  clients st !! RemoteAddr c = Some client →
  TimedOut client = false
  ∨ time.Seconds_ge (time.Sub (time.Now now) (LastMessage client)) TimeoutDuration = true →
  time.Seconds_lt (time.Sub (time.Now now) (LastMessage client)) MessageDebounce = false →
  let r := serverStep Sprintf_f st (mkMessage NewMessage c text) now now' in
  clients r.1
  = <[RemoteAddr c := {| Conn := Conn client; LastMessage := time.Now now';
                         TimedOut := false; Strikes := Strikes client |}]> (clients st) ∧
  bannedClients r.1 = bannedClients st ∧
  (∃ logs : list Effect,
     (∀ e, e ∈ logs → ∃ line, e = LogPrintf line) ∧
     r.2 = logs ++ ((λ kv : string * Client, ConnWrite (Conn kv.2) text)
                      <$> map_to_list (clients r.1))) ∧
  (∀ (a : string) (cl : Client),
     clients r.1 !! a = Some cl → ConnWrite (Conn cl) text ∈ r.2) ∧
  ConnWrite (Conn client) text ∈ r.2.
Proof.
  intros Hc Hstage Hdeb.
  assert (∃ pre : list Effect,
    (∀ e, e ∈ pre → ∃ line, e = LogPrintf line) ∧
    serverStep Sprintf_f st (mkMessage NewMessage c text) now now'
    = ((broadcastStage st (RemoteAddr c) (setTimedOut client false) text now').1,
       pre ++ (broadcastStage st (RemoteAddr c) (setTimedOut client false) text now').2))
    as (pre & Hpre & ->).
  { unfold serverStep. simpl. rewrite Hc.
    destruct (TimedOut client) eqn:Ht.
    - destruct Hstage as [? | Hge]; [done |]. rewrite Hge.
      unfold debounceStage. simpl. rewrite Hdeb.
      exists [LogPrintf ("Info: unban client " +:+ RemoteAddr c)]. split; [| done].
      intros e He. apply list_elem_of_singleton in He. by eexists.
    - unfold debounceStage. rewrite Hdeb. exists []. split.
      + intros e He. by apply elem_of_nil in He.
      + destruct client as [cc lm to sk]. simpl in Ht. by subst to. }
  pose proof (broadcastStage_spec st (RemoteAddr c) (setTimedOut client false) text now')
    as (E1 & E2 & E3).
  cbv zeta. cbn [fst snd]. rewrite E3.
  set (r := broadcastStage st (RemoteAddr c) (setTimedOut client false) text now') in *.
  assert (∀ (a : string) (cl : Client), clients r.1 !! a = Some cl →
    ConnWrite (Conn cl) text
      ∈ pre ++ LogPrintf ("Info: send message " +:+ text +:+ " by " +:+ RemoteAddr c)
          :: ((λ kv : string * Client, ConnWrite (Conn kv.2) text)
                <$> map_to_list (clients r.1))) as Hall.
  { intros a cl Hcl. apply elem_of_app. right. apply elem_of_cons. right.
    apply broadcast_writes_mem. by exists a, cl. }
  repeat split; try done.
  - exists (pre ++ [LogPrintf ("Info: send message " +:+ text +:+ " by " +:+ RemoteAddr c)]).
    split.
    + intros e He. apply elem_of_app in He as [He | He]; [by apply Hpre |].
      apply list_elem_of_singleton in He. by eexists.
    + by rewrite <- app_assoc.
  - apply (Hall (RemoteAddr c) (setLastMessage (setTimedOut client false) (time.Now now'))).
    rewrite E1. apply lookup_insert_eq.
Qed.

(** C3: a [NewMessage] that finds the record flagged [TimedOut] with a last
    time stamp at least [TimeoutDuration] old is handled, after one log
    line, exactly as the same message is handled in the state where the
    flag is already cleared: same resulting state, same further output.  In
    particular, when the time passed is not below [MessageDebounce], the
    message goes through the broadcast stage: the record ends with the flag
    cleared and the new time stamp, and every record is written the text. *)
Theorem timeout_expiry_reprocesses (st : ServerState) (c : net_Conn) (text : string)
    (now now' : time.Reading) (client : Client) :
  clients st !! RemoteAddr c = Some client →
  TimedOut client = true →
  time.Seconds_ge (time.Sub (time.Now now) (LastMessage client)) TimeoutDuration = true →
  let cleared :=
    setClients st (<[RemoteAddr c := setTimedOut client false]> (clients st)) in
  let r := serverStep Sprintf_f st (mkMessage NewMessage c text) now now' in
  let r0 := serverStep Sprintf_f cleared (mkMessage NewMessage c text) now now' in
  r = (r0.1, LogPrintf ("Info: unban client " +:+ RemoteAddr c) :: r0.2) ∧
  (time.Seconds_lt (time.Sub (time.Now now) (LastMessage client)) MessageDebounce = false →
   r = ((broadcastStage st (RemoteAddr c) (setTimedOut client false) text now').1,
        LogPrintf ("Info: unban client " +:+ RemoteAddr c)
          :: (broadcastStage st (RemoteAddr c) (setTimedOut client false) text now').2) ∧
   clients r.1 !! RemoteAddr c
   = Some {| Conn := Conn client; LastMessage := time.Now now';
             TimedOut := false; Strikes := Strikes client |} ∧
   ∀ (a : string) (cl : Client),
     clients r.1 !! a = Some cl → ConnWrite (Conn cl) text ∈ r.2).
Proof.
  intros Hc Ht Hge. cbv zeta.
  assert (serverStep Sprintf_f st (mkMessage NewMessage c text) now now'
          = ((debounceStage st (RemoteAddr c) (setTimedOut client false)
                (time.Sub (time.Now now) (LastMessage client)) text now').1,
             LogPrintf ("Info: unban client " +:+ RemoteAddr c)
               :: (debounceStage st (RemoteAddr c) (setTimedOut client false)
                     (time.Sub (time.Now now) (LastMessage client)) text now').2)) as E.
  { unfold serverStep. simpl. by rewrite Hc, Ht, Hge. }
  split.
  - rewrite E. unfold serverStep. simpl. rewrite lookup_insert_eq. simpl.
    unfold debounceStage, broadcastStage, setClients. simpl.
    repeat case_match; simpl; rewrite ?insert_insert_eq, ?delete_insert_eq; done.
  - intros Hdeb. rewrite E. unfold debounceStage. rewrite Hdeb.
    split; [done |]. split.
    + simpl. apply lookup_insert_eq.
    + intros a cl Hcl. apply elem_of_cons. right.
      pose proof (broadcastStage_spec st (RemoteAddr c) (setTimedOut client false)
                    text now') as (_ & _ & E3).
      cbv zeta in E3. rewrite E3. apply elem_of_cons. right.
      apply broadcast_writes_mem. by exists a, cl.
Qed.

(** C5: a [ClientConnected] message from an address that is not banned
    stores a record whose [LastMessage] is the zero [Time] and whose flag is
    clear; and for such a record, whatever the clock shows (any reading of a
    system clock, which counts from the Unix epoch), a [NewMessage] is not
    stopped by the debounce stage: it is handled by the broadcast stage,
    which writes the text to the client. *)
Theorem first_message_accepted (st : ServerState) (c : net_Conn) (text : string)
    (now now' : time.Reading) :
  (∀ (text0 : string) (n n' : time.Reading),
     isBanned st (RemoteAddr c) = false →
     clients (serverStep Sprintf_f st (mkMessage ClientConnected c text0) n n').1 !! RemoteAddr c
     = Some {| Conn := c; LastMessage := time.zero; TimedOut := false; Strikes := 0 |}) ∧
  ∀ client : Client,
    clients st !! RemoteAddr c = Some client →
    LastMessage client = time.zero →
    TimedOut client = false →
    time.afterUnixEpoch now →
    let r := serverStep Sprintf_f st (mkMessage NewMessage c text) now now' in
    r = broadcastStage st (RemoteAddr c) client text now' ∧
    clients r.1 !! RemoteAddr c
    = Some {| Conn := Conn client; LastMessage := time.Now now';
              TimedOut := false; Strikes := Strikes client |} ∧
    bannedClients r.1 = bannedClients st ∧
    ConnWrite (Conn client) text ∈ r.2.
Proof.
  split.
  - intros text0 n n' Hb. unfold serverStep. simpl. rewrite Hb. simpl.
    apply lookup_insert_eq.
  - intros client Hc Hz Ht Hnow. cbv zeta.
    assert (serverStep Sprintf_f st (mkMessage NewMessage c text) now now'
            = broadcastStage st (RemoteAddr c) client text now') as E.
    { unfold serverStep. simpl. rewrite Hc, Ht, Hz.
      unfold debounceStage. by rewrite (Sub_zero now Hnow). }
    rewrite E. split; [done |].
    pose proof (broadcastStage_spec st (RemoteAddr c) client text now') as (E1 & E2 & E3).
    cbv zeta in *. split; [| split; [done |]].
    + rewrite E1, lookup_insert_eq. destruct client; simpl in *; by subst.
    + rewrite E3. apply elem_of_cons. right. apply broadcast_writes_mem.
      exists (RemoteAddr c), (setLastMessage client (time.Now now')).
      split; [| done]. rewrite E1. apply lookup_insert_eq.
Qed.

Lemma debounceViolation_inv (client : Client) (passedTime : Z) :
  debounceViolation client passedTime = true →
  TimedOut client = false ∧ time.Seconds_lt passedTime MessageDebounce = true.
Proof.
  unfold debounceViolation. intros H. apply andb_true_iff in H as [H1 H2].
  split; [| done]. apply orb_true_iff in H1 as [H1 | H1].
  - by apply negb_true_iff.
  - apply Seconds_ge_not_lt in H1. congruence.
Qed.

(** What a debounce violation does, by the incremented counter. *)
Lemma violation_step (st : ServerState) (c : net_Conn) (text : string)
    (now now' : time.Reading) (client : Client) :
  clients st !! RemoteAddr c = Some client →
  debounceViolation client (time.Sub (time.Now now) (LastMessage client)) = true →
  serverStep Sprintf_f st (mkMessage NewMessage c text) now now'
  = if 3 <=? wrap_int (Strikes client + 1) then
      ({| clients := delete (RemoteAddr c) (clients st);
          bannedClients := <[RemoteAddr c := true]> (bannedClients st) |},
       [ConnWrite (Conn client) "you are banned. bye bye"; ConnClose (Conn client)])
    else
      (setClients st
         (<[RemoteAddr c := {| Conn := Conn client; LastMessage := time.Now now';
                               TimedOut := true;
                               Strikes := wrap_int (Strikes client + 1) |}]> (clients st)),
       [LogPrintf ("Info: timeout client " +:+ RemoteAddr c
                     +:+ " for 5.000000. number strikes: "
                     +:+ Itoa (wrap_int (Strikes client + 1)));
        ConnWrite (Conn client)
          ("Strike number " +:+ Itoa (wrap_int (Strikes client + 1))
             +:+ ". You are timed out. Wait for 5")]).
Proof.
  intros Hc Hv. apply debounceViolation_inv in Hv as [Ht Hlt].
  unfold serverStep. simpl. rewrite Hc, Ht.
  unfold debounceStage. rewrite Hlt. simpl. by case_match.
Qed.

(** C2: while a [NewMessage] is handled, a record that is kept changes its
    [Strikes] only by the increment of line 96, on the path where
    [passedTime.Seconds() < MessageDebounce] holds after the timeout stage;
    and when the incremented counter is 3 or more, the one iteration puts
    the address into [bannedClients], writes the ban notice to the client,
    closes its connection and deletes its record.  An address that this
    iteration bans has no record when the iteration ends. *)
Theorem strikes_and_ban (st : ServerState) (c : net_Conn) (text : string)
    (now now' : time.Reading) :
  let r := serverStep Sprintf_f st (mkMessage NewMessage c text) now now' in
  (∀ (a : string) (cl cl' : Client),
     clients st !! a = Some cl → clients r.1 !! a = Some cl' →
     Strikes cl' ≠ Strikes cl →
     a = RemoteAddr c ∧
     debounceViolation cl (time.Sub (time.Now now) (LastMessage cl)) = true ∧
     Strikes cl' = wrap_int (Strikes cl + 1)) ∧
  (∀ client : Client,
     clients st !! RemoteAddr c = Some client →
     debounceViolation client (time.Sub (time.Now now) (LastMessage client)) = true →
     3 <= wrap_int (Strikes client + 1) →
     bannedClients r.1 = <[RemoteAddr c := true]> (bannedClients st) ∧
     clients r.1 = delete (RemoteAddr c) (clients st) ∧
     r.2 = [ConnWrite (Conn client) "you are banned. bye bye"; ConnClose (Conn client)]) ∧
  (bannedClients st !! RemoteAddr c = None →
   is_Some (bannedClients r.1 !! RemoteAddr c) →
   clients r.1 !! RemoteAddr c = None).
Proof.
  cbv zeta. split; [| split].
  - intros a cl cl' Hcl Hcl' Hne.
    destruct (decide (a = RemoteAddr c)) as [-> | Hna].
    + split; [done |].
      unfold serverStep, debounceStage, broadcastStage, debounceViolation,
        setClients in *. simpl in *. rewrite Hcl in Hcl'.
      repeat (case_match; simpl in *; simplify_map_eq; try done).
    + exfalso. apply Hne. f_equal.
      unfold serverStep, debounceStage, broadcastStage, setClients in Hcl'.
      simpl in Hcl'.
      repeat (case_match; simpl in *; simplify_map_eq; try done).
  - intros client Hc Hv H3.
    rewrite (violation_step st c text now now' client Hc Hv).
    apply Z.leb_le in H3. by rewrite H3.
  - intros Hnb Hb.
    unfold serverStep, debounceStage, broadcastStage, setClients in *.
    simpl in *.
    repeat (case_match; simpl in *; simplify_map_eq; try done);
      try (destruct Hb; congruence).
Qed.

(** C4: the escalation, by the counter the record holds when the message
    arrives.  A violation of the debounce interval with no strike so far
    sets the flag and writes the notice for strike 1; a message that
    arrives while the flag is set and less than [TimeoutDuration] has
    passed gets the wait notice and changes nothing; a violation with one
    strike so far sets the flag again and writes the notice for strike 2;
    a violation with two strikes so far bans the address, writes the ban
    notice, closes the connection and deletes the record. *)
Theorem strike_escalation (st : ServerState) (c : net_Conn) (text : string)
    (now now' : time.Reading) (client : Client) :
  clients st !! RemoteAddr c = Some client →
  let passedTime := time.Sub (time.Now now) (LastMessage client) in
  let r := serverStep Sprintf_f st (mkMessage NewMessage c text) now now' in
  (debounceViolation client passedTime = true → Strikes client = 0 →
   clients r.1
   = <[RemoteAddr c := {| Conn := Conn client; LastMessage := time.Now now';
                          TimedOut := true; Strikes := 1 |}]> (clients st) ∧
   bannedClients r.1 = bannedClients st ∧
   r.2 = [LogPrintf ("Info: timeout client " +:+ RemoteAddr c
                       +:+ " for 5.000000. number strikes: 1");
          ConnWrite (Conn client) "Strike number 1. You are timed out. Wait for 5"]) ∧
  (TimedOut client = true → time.Seconds_ge passedTime TimeoutDuration = false →
   r.1 = st ∧
   r.2 = [LogPrintf ("Info: client " +:+ RemoteAddr c +:+ " still banned");
          ConnWrite (Conn client)
            ("You are timed out. Chill for "
               +:+ Sprintf_f (TimeoutDuration * time.Second - passedTime)
               +:+ " Seconds")]) ∧
  (debounceViolation client passedTime = true → Strikes client = 1 →
   clients r.1
   = <[RemoteAddr c := {| Conn := Conn client; LastMessage := time.Now now';
                          TimedOut := true; Strikes := 2 |}]> (clients st) ∧
   bannedClients r.1 = bannedClients st ∧
   r.2 = [LogPrintf ("Info: timeout client " +:+ RemoteAddr c
                       +:+ " for 5.000000. number strikes: 2");
          ConnWrite (Conn client) "Strike number 2. You are timed out. Wait for 5"]) ∧
  (debounceViolation client passedTime = true → Strikes client = 2 →
   bannedClients r.1 = <[RemoteAddr c := true]> (bannedClients st) ∧
   clients r.1 = delete (RemoteAddr c) (clients st) ∧
   r.2 = [ConnWrite (Conn client) "you are banned. bye bye"; ConnClose (Conn client)]).
Proof.
  intros Hc. cbv zeta.
  split; [| split; [| split]].
  - intros Hv Hs. rewrite (violation_step st c text now now' client Hc Hv), Hs. done.
  - intros Ht Hp. rewrite (timed_out_step st c text now now' client Hc Ht Hp). done.
  - intros Hv Hs. rewrite (violation_step st c text now now' client Hc Hv), Hs. done.
  - intros Hv Hs. rewrite (violation_step st c text now now' client Hc Hv), Hs. done.
Qed.

Lemma wrap_int_small (z : Z) : - 2 ^ 63 <= z < 2 ^ 63 → wrap_int z = z.
Proof.
  intros H. unfold wrap_int.
  rewrite Z.mod_small; change (2 ^ 63) with 9223372036854775808 in *;
    change (2 ^ 64) with 18446744073709551616; lia.
Qed.

(** A record that an iteration leaves flagged is either the record that
    was there before, or this iteration is a debounce violation by its
    client, which was not flagged, and the time stamp is the reading of
    line 109. *)
Lemma step_timed_out (st : ServerState) (i : Input) (a : string) (cl : Client) :
  clients (step Sprintf_f st i) !! a = Some cl → TimedOut cl = true →
  clients st !! a = Some cl
  ∨ (mType (in_msg i) = NewMessage ∧ RemoteAddr (mConn (in_msg i)) = a ∧
     LastMessage cl = time.Now (in_now' i) ∧
     ∃ cl0 : Client,
       clients st !! a = Some cl0 ∧ TimedOut cl0 = false ∧
       debounceViolation cl0 (time.Sub (time.Now (in_now i)) (LastMessage cl0)) = true).
Proof.
  destruct i as [[ty c text] now now']. intros Hcl Ht.
  destruct (decide (a = RemoteAddr c)) as [-> | Hna].
  - destruct ty.
    + left. unfold step, serverStep, isBanned, setClients in Hcl.
      simpl in Hcl. case_match; simpl in Hcl; [done |].
      rewrite lookup_insert_eq in Hcl. by simplify_eq.
    + unfold step, serverStep, setClients in Hcl. simpl in Hcl.
      by rewrite lookup_delete_eq in Hcl.
    + unfold step, serverStep in Hcl. simpl in Hcl.
      destruct (clients st !! RemoteAddr c) as [cl0 |] eqn:Hc; [| simpl in Hcl; congruence].
      destruct (TimedOut cl0) eqn:Ht0.
      * destruct (time.Seconds_ge _ TimeoutDuration) eqn:Hge; [| left; simpl in Hcl; congruence].
        apply Seconds_ge_not_lt in Hge. unfold debounceStage in Hcl. rewrite Hge in Hcl.
        simpl in Hcl. rewrite lookup_insert_eq in Hcl. by simplify_eq.
      * unfold debounceStage in Hcl.
        destruct (time.Seconds_lt _ MessageDebounce) eqn:Hlt.
        -- right. simpl in Hcl. case_match; simpl in Hcl.
           ++ by rewrite lookup_delete_eq in Hcl.
           ++ rewrite lookup_insert_eq in Hcl. simplify_eq. simpl.
              repeat split; try done. exists cl0. repeat split; try done.
              unfold debounceViolation. by rewrite Ht0, Hlt.
        -- simpl in Hcl. rewrite lookup_insert_eq in Hcl. simplify_eq. simpl in Ht.
           congruence.
  - left. rewrite <- Hcl. symmetry.
    unfold step, serverStep, debounceStage, broadcastStage,
      setClients, isBanned. simpl.
    repeat (case_match; simpl; rewrite ?lookup_insert_ne, ?lookup_delete_ne by done;
            try done).
Qed.

Lemma step_strikesBounded (st : ServerState) (i : Input) :
  strikesBounded st → strikesBounded (step Sprintf_f st i).
Proof.
  intros Hb a cl. destruct i as [[ty c text] now now'].
  destruct (decide (a = RemoteAddr c)) as [-> | Hna].
  - pose proof (Hb (RemoteAddr c)) as Hb0.
    unfold step, serverStep, debounceStage, broadcastStage,
      setClients, isBanned. simpl.
    destruct (clients st !! RemoteAddr c) as [cl0 |] eqn:Hc.
    + specialize (Hb0 cl0 eq_refl).
      assert (wrap_int (Strikes cl0 + 1) = Strikes cl0 + 1) as Hw.
      { apply wrap_int_small. change (2 ^ 63) with 9223372036854775808. lia. }
      repeat (case_match; simpl; rewrite ?lookup_insert_eq, ?lookup_delete_eq;
              try done);
        intros; simplify_eq; simpl; try lia; try by apply (Hb _ _ Hc).
      all: match goal with
           | H : (3 <=? _) = false |- _ => apply Z.leb_gt in H
           end; lia.
    + repeat (case_match; simpl; rewrite ?lookup_insert_eq, ?lookup_delete_eq;
              try done);
        intros; simplify_eq; simpl; try lia; congruence.
  - intros Hcl. apply (Hb a).
    rewrite <- Hcl. symmetry.
    unfold step, serverStep, debounceStage, broadcastStage,
      setClients, isBanned. simpl.
    repeat (case_match; simpl; rewrite ?lookup_insert_ne, ?lookup_delete_ne by done;
            try done).
Qed.

Lemma exec_strikesBounded (tr : list Input) : strikesBounded (exec Sprintf_f tr).
Proof.
  induction tr as [| i tr IH] using rev_ind.
  - intros a cl Hcl. simpl in Hcl. by rewrite lookup_empty in Hcl.
  - unfold exec. rewrite exec_from_snoc. by apply step_strikesBounded.
Qed.

(** When the flag is set, its current timeout began at an earlier input of
    the history: a debounce violation by this client, before which the flag
    was clear, after which the record has stayed as it is, and whose reading
    of line 109 is the record's time stamp. *)
Lemma exec_timed_out (tr : list Input) (a : string) (cl : Client) :
  clients (exec Sprintf_f tr) !! a = Some cl → TimedOut cl = true →
  ∃ (tr1 : list Input) (i : Input) (tr2 : list Input),
    tr = tr1 ++ i :: tr2 ∧
    mType (in_msg i) = NewMessage ∧ RemoteAddr (mConn (in_msg i)) = a ∧
    (∃ cl0 : Client,
       clients (exec Sprintf_f tr1) !! a = Some cl0 ∧ TimedOut cl0 = false ∧
       debounceViolation cl0 (time.Sub (time.Now (in_now i)) (LastMessage cl0)) = true) ∧
    LastMessage cl = time.Now (in_now' i) ∧
    ∀ k : nat, clients (exec Sprintf_f (tr1 ++ i :: take k tr2)) !! a = Some cl.
Proof.
  induction tr as [| j tr IH] using rev_ind; intros Hcl Ht.
  - simpl in Hcl. by rewrite lookup_empty in Hcl.
  - unfold exec in Hcl. rewrite exec_from_snoc in Hcl.
    destruct (step_timed_out _ _ _ _ Hcl Ht) as [Hold | (Hty & Ha & Hlm & Hcl0)].
    + destruct (IH Hold Ht) as (tr1 & i & tr2 & -> & Hty & Ha & Hcl0 & Hlm & Hkeep).
      exists tr1, i, (tr2 ++ [j]). repeat split; try done.
      * by rewrite <- app_assoc.
      * intros k. destruct (decide (k ≤ length tr2)%nat) as [Hk | Hk].
        -- rewrite take_app_le by done. apply Hkeep.
        -- rewrite take_ge by (rewrite length_app; simpl; lia).
           unfold exec.
           replace (tr1 ++ i :: tr2 ++ [j]) with ((tr1 ++ i :: tr2) ++ [j])
             by (by rewrite <- app_assoc).
           by rewrite exec_from_snoc.
    + exists tr, j, []. repeat split; try done.
      intros k. rewrite take_nil. unfold exec. by rewrite exec_from_snoc.
Qed.

(** C10: in every state the loop reaches, a record whose flag is set
    carries as [LastMessage] the clock reading taken when its current
    timeout began; since [TimeoutDuration] is not less than
    [MessageDebounce], a [NewMessage] that ends a timeout is never a
    debounce violation: it leaves the counter alone and is broadcast; and
    every record in [clients] has at most 2 strikes. *)
Theorem timeout_and_strike_invariants (tr : list Input) :
  (∀ (a : string) (cl : Client),
     clients (exec Sprintf_f tr) !! a = Some cl → TimedOut cl = true →
     ∃ (tr1 : list Input) (i : Input) (tr2 : list Input),
       tr = tr1 ++ i :: tr2 ∧
       mType (in_msg i) = NewMessage ∧ RemoteAddr (mConn (in_msg i)) = a ∧
       (∃ cl0 : Client,
          clients (exec Sprintf_f tr1) !! a = Some cl0 ∧ TimedOut cl0 = false ∧
          debounceViolation cl0 (time.Sub (time.Now (in_now i)) (LastMessage cl0)) = true) ∧
       LastMessage cl = time.Now (in_now' i) ∧
       ∀ k : nat, clients (exec Sprintf_f (tr1 ++ i :: take k tr2)) !! a = Some cl) ∧
  (∀ (c : net_Conn) (text : string) (now now' : time.Reading) (client : Client),
     clients (exec Sprintf_f tr) !! RemoteAddr c = Some client →
     TimedOut client = true →
     time.Seconds_ge (time.Sub (time.Now now) (LastMessage client)) TimeoutDuration = true →
     let r := serverStep Sprintf_f (exec Sprintf_f tr) (mkMessage NewMessage c text) now now' in
     debounceViolation client (time.Sub (time.Now now) (LastMessage client)) = false ∧
     clients r.1
     = <[RemoteAddr c := {| Conn := Conn client; LastMessage := time.Now now';
                            TimedOut := false; Strikes := Strikes client |}]>
         (clients (exec Sprintf_f tr)) ∧
     bannedClients r.1 = bannedClients (exec Sprintf_f tr) ∧
     ∀ (a : string) (cl : Client),
       clients r.1 !! a = Some cl → ConnWrite (Conn cl) text ∈ r.2) ∧
  (∀ (a : string) (cl : Client),
     clients (exec Sprintf_f tr) !! a = Some cl → 0 <= Strikes cl <= 2).
Proof.
  split; [| split].
  - apply exec_timed_out.
  - intros c text now now' client Hc Ht Hge. cbv zeta.
    pose proof (Seconds_ge_not_lt _ Hge) as Hlt.
    split; [unfold debounceViolation; by rewrite Hlt, andb_false_r |].
    unfold serverStep. simpl. rewrite Hc, Ht, Hge.
    unfold debounceStage. rewrite Hlt.
    pose proof (broadcastStage_spec (exec Sprintf_f tr) (RemoteAddr c) (setTimedOut client false)
                  text now') as (E1 & E2 & E3).
    cbv zeta in *. cbn [fst snd]. repeat split; try done.
    intros a cl Hcl. apply elem_of_cons. right. rewrite E3. apply elem_of_cons. right.
    apply broadcast_writes_mem. by exists a, cl.
  - apply exec_strikesBounded.
Qed.

End Properties.

(** ** Further properties of [server] *)

Lemma state_eq (s1 s2 : ServerState) :
  clients s1 = clients s2 → bannedClients s1 = bannedClients s2 → s1 = s2.
Proof. destruct s1, s2. simpl. by intros -> ->. Qed.

Section Interplay.

Variable Sprintf_f : Z -> string.

(** Unfold an iteration for a message from another address than [a]. *)
Ltac other_addr :=
  unfold step, serverStep, debounceStage, broadcastStage, setClients, isBanned; simpl;
  repeat (case_match; simpl; rewrite ?lookup_insert_ne, ?lookup_delete_ne by done;
          try done).

Lemma step_other (st : ServerState) (i : Input) (a : string) :
  a ≠ RemoteAddr (mConn (in_msg i)) →
  clients (step Sprintf_f st i) !! a = clients st !! a ∧
  bannedClients (step Sprintf_f st i) !! a = bannedClients st !! a.
Proof.
  intros Hne. destruct i as [[ty c text] now now']. simpl in Hne.
  split; other_addr.
Qed.

(** What an iteration leaves under the address of its message depends only
    on what the two maps held under that address. *)
Lemma step_local (st1 st2 : ServerState) (i : Input) :
  clients st1 !! RemoteAddr (mConn (in_msg i)) = clients st2 !! RemoteAddr (mConn (in_msg i)) →
  bannedClients st1 !! RemoteAddr (mConn (in_msg i))
  = bannedClients st2 !! RemoteAddr (mConn (in_msg i)) →
  clients (step Sprintf_f st1 i) !! RemoteAddr (mConn (in_msg i))
  = clients (step Sprintf_f st2 i) !! RemoteAddr (mConn (in_msg i)) ∧
  bannedClients (step Sprintf_f st1 i) !! RemoteAddr (mConn (in_msg i))
  = bannedClients (step Sprintf_f st2 i) !! RemoteAddr (mConn (in_msg i)).
Proof.
  destruct i as [[ty c text] now now']. simpl. intros Hc Hb.
  unfold step, serverStep, debounceStage, broadcastStage, setClients, isBanned. simpl.
  rewrite <- Hc, <- Hb.
  split;
    repeat (case_match; simpl; rewrite ?lookup_insert_eq, ?lookup_delete_eq; try done);
    congruence.
Qed.

(** X1: a message changes nothing under any other address: the record and
    the ban entry of every address but the sender's are what they were. *)
Theorem other_addresses_untouched (st : ServerState) (i : Input) (a : string) :
  a ≠ RemoteAddr (mConn (in_msg i)) →
  clients (step Sprintf_f st i) !! a = clients st !! a ∧
  bannedClients (step Sprintf_f st i) !! a = bannedClients st !! a.
Proof. apply step_other. Qed.

(** X2: inputs from two different addresses can be handled in either order:
    the state afterwards is the same. *)
Theorem different_addresses_commute (st : ServerState) (i j : Input) :
  RemoteAddr (mConn (in_msg i)) ≠ RemoteAddr (mConn (in_msg j)) →
  step Sprintf_f (step Sprintf_f st i) j = step Sprintf_f (step Sprintf_f st j) i.
Proof.
  intros Hne.
  assert (∀ k,
    clients (step Sprintf_f (step Sprintf_f st i) j) !! k
    = clients (step Sprintf_f (step Sprintf_f st j) i) !! k ∧
    bannedClients (step Sprintf_f (step Sprintf_f st i) j) !! k
    = bannedClients (step Sprintf_f (step Sprintf_f st j) i) !! k) as H.
  { intros k.
    destruct (decide (k = RemoteAddr (mConn (in_msg i)))) as [-> | Hki];
      [| destruct (decide (k = RemoteAddr (mConn (in_msg j)))) as [-> | Hkj]].
    - destruct (step_other (step Sprintf_f st i) j _ Hne) as [-> ->].
      destruct (step_other st j _ Hne) as [E1 E2].
      destruct (step_local st (step Sprintf_f st j) i) as [-> ->]; done.
    - assert (RemoteAddr (mConn (in_msg j)) ≠ RemoteAddr (mConn (in_msg i))) as Hne'
        by congruence.
      destruct (step_other (step Sprintf_f st j) i _ Hne') as [-> ->].
      destruct (step_other st i _ Hne') as [E1 E2].
      destruct (step_local (step Sprintf_f st i) st j) as [-> ->]; done.
    - destruct (step_other (step Sprintf_f st i) j _ Hkj) as [-> ->].
      destruct (step_other (step Sprintf_f st j) i _ Hki) as [-> ->].
      destruct (step_other st i _ Hki) as [-> ->].
      destruct (step_other st j _ Hkj) as [-> ->]. done. }
  apply state_eq; apply map_eq; intros k; apply H.
Qed.

(** X3: handling [ClientDisconnected] for an address twice is the same as
    handling it once, whichever sockets of that address the two messages
    name. *)
Theorem disconnect_idempotent (st : ServerState) (i j : Input) :
  mType (in_msg i) = ClientDisconnected →
  mType (in_msg j) = ClientDisconnected →
  RemoteAddr (mConn (in_msg j)) = RemoteAddr (mConn (in_msg i)) →
  step Sprintf_f (step Sprintf_f st i) j = step Sprintf_f st i.
Proof.
  destruct i as [[ty c text] now now'], j as [[ty2 c2 text2] now2 now2'].
  simpl. intros -> -> E.
  unfold step, serverStep, setClients. simpl. rewrite E.
  apply state_eq; simpl; [| done]. apply delete_delete_eq.
Qed.

(** X4: in a state the loop reaches, no message from a banned address
    changes the state, whatever its type; a [NewMessage] from it is answered
    by closing its connection and is written to nobody. *)
Theorem banned_address_is_shut_out (tr : list Input) (i : Input) :
  is_Some (bannedClients (exec Sprintf_f tr) !! RemoteAddr (mConn (in_msg i))) →
  step Sprintf_f (exec Sprintf_f tr) i = exec Sprintf_f tr ∧
  (mType (in_msg i) = NewMessage →
   (serverStep Sprintf_f (exec Sprintf_f tr) (in_msg i) (in_now i) (in_now' i)).2
   = [ConnClose (mConn (in_msg i));
      LogPrintf ("Error: client with address: " +:+ RemoteAddr (mConn (in_msg i))
                   +:+ " does not exist")]).
Proof.
  intros Hb.
  assert (clients (exec Sprintf_f tr) !! RemoteAddr (mConn (in_msg i)) = None) as Hn.
  { destruct (clients (exec Sprintf_f tr) !! RemoteAddr (mConn (in_msg i))) as [cl |] eqn:E;
      [| done].
    pose proof (exec_separated Sprintf_f tr _ (mk_is_Some _ _ E)) as Hs.
    rewrite Hs in Hb. by destruct Hb. }
  destruct i as [[ty c text] now now']. simpl in *.
  unfold step, serverStep, isBanned, setClients. simpl. rewrite Hn.
  rewrite (bool_decide_eq_true_2 _ Hb).
  split.
  - destruct ty; simpl; try done.
    apply state_eq; simpl; [| done]. by apply delete_id.
  - by intros ->.
Qed.

(** X5: an iteration bans an address only on the third strike: when an
    address is banned after an iteration of a reachable state and was not
    before, the message was a [NewMessage] from that address, the record
    held two strikes and the message violated the debounce interval. *)
Theorem ban_only_by_escalation (tr : list Input) (i : Input) (a : string) :
  bannedClients (exec Sprintf_f tr) !! a = None →
  is_Some (bannedClients (step Sprintf_f (exec Sprintf_f tr) i) !! a) →
  mType (in_msg i) = NewMessage ∧ RemoteAddr (mConn (in_msg i)) = a ∧
  ∃ cl : Client,
    clients (exec Sprintf_f tr) !! a = Some cl ∧ Strikes cl = 2 ∧
    debounceViolation cl (time.Sub (time.Now (in_now i)) (LastMessage cl)) = true.
Proof.
  intros Hn Hb.
  destruct (decide (a = RemoteAddr (mConn (in_msg i)))) as [-> | Hne].
  2: { destruct (step_other (exec Sprintf_f tr) i a Hne) as [_ E].
       rewrite E, Hn in Hb. by destruct Hb. }
  pose proof (exec_strikesBounded Sprintf_f tr (RemoteAddr (mConn (in_msg i)))) as Hsb.
  destruct i as [[ty c text] now now']. simpl in *.
  unfold step, serverStep, debounceStage, broadcastStage, setClients, isBanned in Hb.
  simpl in Hb.
  destruct ty; simpl in Hb.
  - case_match; simpl in Hb; rewrite Hn in Hb; by destruct Hb.
  - rewrite Hn in Hb. by destruct Hb.
  - destruct (clients (exec Sprintf_f tr) !! RemoteAddr c) as [cl |] eqn:Hc;
      [| simpl in Hb; rewrite Hn in Hb; by destruct Hb].
    specialize (Hsb cl eq_refl).
    assert (wrap_int (Strikes cl + 1) = Strikes cl + 1) as Hw.
    { apply wrap_int_small. change (2 ^ 63) with 9223372036854775808. lia. }
    repeat split; try done. exists cl. split; [done |].
    unfold debounceViolation.
    destruct (TimedOut cl) eqn:Ht;
      [destruct (time.Seconds_ge _ TimeoutDuration) eqn:Hge;
         [| simpl in Hb; rewrite Hn in Hb; by destruct Hb] |];
      (destruct (time.Seconds_lt _ MessageDebounce) eqn:Hlt;
         [| simpl in Hb; rewrite Hn in Hb; by destruct Hb]);
      simpl in Hb; rewrite Hw in Hb;
      (destruct (3 <=? Strikes cl + 1) eqn:H3;
         [| simpl in Hb; rewrite Hn in Hb; by destruct Hb]);
      apply Z.leb_le in H3; split; try done; lia.
Qed.

(** What an iteration does to the record under the address of its message. *)
Lemma step_own_record (st : ServerState) (i : Input) (cl' : Client) :
  clients (step Sprintf_f st i) !! RemoteAddr (mConn (in_msg i)) = Some cl' →
  (mType (in_msg i) = ClientConnected ∧ Conn cl' = mConn (in_msg i) ∧
   bannedClients st !! RemoteAddr (mConn (in_msg i)) = None)
  ∨ (mType (in_msg i) = ClientConnected ∧
     is_Some (bannedClients st !! RemoteAddr (mConn (in_msg i))) ∧
     clients st !! RemoteAddr (mConn (in_msg i)) = Some cl')
  ∨ (mType (in_msg i) = NewMessage ∧
     ∃ cl : Client,
       clients st !! RemoteAddr (mConn (in_msg i)) = Some cl ∧ Conn cl' = Conn cl ∧
       (Strikes cl' = Strikes cl ∨ Strikes cl' = wrap_int (Strikes cl + 1))).
Proof.
  destruct i as [[ty c text] now now']. simpl.
  unfold step, serverStep, debounceStage, broadcastStage, setClients, isBanned. simpl.
  destruct ty; simpl.
  - destruct (bool_decide _) eqn:Hb; simpl.
    + apply bool_decide_eq_true in Hb. intros Hc. right. left. done.
    + apply bool_decide_eq_false in Hb. rewrite lookup_insert_eq. intros [= <-].
      left. simpl. repeat split; try done. by apply eq_None_not_Some.
  - by rewrite lookup_delete_eq.
  - intros Hc. right. right. split; [done |].
    destruct (clients st !! RemoteAddr c) as [cl |] eqn:E; [| simpl in Hc; congruence].
    exists cl. split; [done |].
    repeat (case_match; simpl in Hc;
            rewrite ?lookup_insert_eq, ?lookup_delete_eq in Hc; try done);
      simplify_eq; simpl; auto.
Qed.

(** X6: every record of a reachable state was stored by a [ClientConnected]
    input of the history that named the record's connection; the record is
    kept under the remote address of that connection; and since then every
    input from that address has been a [NewMessage]. *)
Theorem record_provenance (tr : list Input) (a : string) (cl : Client) :
  clients (exec Sprintf_f tr) !! a = Some cl →
  ∃ (tr1 : list Input) (i : Input) (tr2 : list Input),
    tr = tr1 ++ i :: tr2 ∧
    mType (in_msg i) = ClientConnected ∧ mConn (in_msg i) = Conn cl ∧
    RemoteAddr (Conn cl) = a ∧
    ∀ j : Input,
      j ∈ tr2 → RemoteAddr (mConn (in_msg j)) = a → mType (in_msg j) = NewMessage.
Proof.
  revert cl. induction tr as [| j tr IH] using rev_ind; intros cl Hcl.
  - simpl in Hcl. by rewrite lookup_empty in Hcl.
  - unfold exec in Hcl. rewrite exec_from_snoc in Hcl.
    destruct (decide (a = RemoteAddr (mConn (in_msg j)))) as [-> | Hne].
    + destruct (step_own_record _ _ _ Hcl)
        as [(Hty & Hconn & _) | [(Hty & Hb & Hold) | (Hty & cl0 & Hold & Hconn & _)]].
      * exists tr, j, []. repeat split; try done.
        -- by rewrite Hconn.
        -- intros k Hk. by apply elem_of_nil in Hk.
      * pose proof (exec_separated Sprintf_f tr _ (mk_is_Some _ _ Hold)) as Hs.
        unfold exec in Hs. rewrite Hs in Hb. by destruct Hb.
      * destruct (IH cl0 Hold) as (tr1 & i & tr2 & -> & Hty' & Hc' & Ha & Hall).
        exists tr1, i, (tr2 ++ [j]). repeat split; try done.
        -- by rewrite <- app_assoc.
        -- congruence.
        -- congruence.
        -- intros k Hk Hka. apply elem_of_app in Hk as [Hk | Hk]; [by apply Hall |].
           apply list_elem_of_singleton in Hk. by subst k.
    + destruct (step_other (exec_from Sprintf_f initial tr) j a Hne) as [E _].
      rewrite E in Hcl.
      destruct (IH cl Hcl) as (tr1 & i & tr2 & -> & Hty' & Hc' & Ha & Hall).
      exists tr1, i, (tr2 ++ [j]). repeat split; try done.
      * by rewrite <- app_assoc.
      * intros k Hk Hka. apply elem_of_app in Hk as [Hk | Hk]; [by apply Hall |].
        apply list_elem_of_singleton in Hk. subst k. congruence.
Qed.

(** A record of a reachable state is kept under the remote address of its
    own connection. *)
Lemma exec_keyed (tr : list Input) (a : string) (cl : Client) :
  clients (exec Sprintf_f tr) !! a = Some cl → RemoteAddr (Conn cl) = a.
Proof.
  revert cl. induction tr as [| j tr IH] using rev_ind; intros cl Hcl.
  - simpl in Hcl. by rewrite lookup_empty in Hcl.
  - unfold exec in Hcl. rewrite exec_from_snoc in Hcl.
    destruct (decide (a = RemoteAddr (mConn (in_msg j)))) as [-> | Hne].
    + destruct (step_own_record _ _ _ Hcl)
        as [(_ & Hconn & _) | [(_ & _ & Hold) | (_ & cl0 & Hold & Hconn & _)]].
      * by rewrite Hconn.
      * by apply IH.
      * rewrite Hconn. by apply IH.
    + destruct (step_other (exec_from Sprintf_f initial tr) j a Hne) as [E _].
      rewrite E in Hcl. by apply IH.
Qed.

(** X7: while a record stays in [clients], only a [ClientConnected] message
    lowers its strikes: after any other message the record, if still there,
    has the same connection and the same strikes or one more. *)
Theorem strikes_never_forgiven (tr : list Input) (i : Input) (a : string)
    (cl cl' : Client) :
  mType (in_msg i) ≠ ClientConnected →
  clients (exec Sprintf_f tr) !! a = Some cl →
  clients (step Sprintf_f (exec Sprintf_f tr) i) !! a = Some cl' →
  Conn cl' = Conn cl ∧ Strikes cl <= Strikes cl' <= Strikes cl + 1.
Proof.
  intros Hty Hcl Hcl'.
  destruct (decide (a = RemoteAddr (mConn (in_msg i)))) as [-> | Hne].
  - pose proof (exec_strikesBounded Sprintf_f tr _ _ Hcl) as Hsb.
    destruct (step_own_record _ _ _ Hcl')
      as [(? & _) | [(? & _) | (_ & cl0 & Hold & Hconn & Hs)]]; try done.
    rewrite Hcl in Hold. simplify_eq. split; [done |].
    rewrite wrap_int_small in Hs by (change (2 ^ 63) with 9223372036854775808; lia).
    lia.
  - destruct (step_other (exec Sprintf_f tr) i a Hne) as [E _].
    rewrite E, Hcl in Hcl'. simplify_eq. split; [done | lia].
Qed.

(** X8: an iteration of a reachable state closes only sockets of the
    sender's address, and what it writes to a socket of another address is
    the text of the [NewMessage] being handled. *)
Theorem effects_stay_with_sender (tr : list Input) (i : Input) (e : Effect) :
  e ∈ (serverStep Sprintf_f (exec Sprintf_f tr) (in_msg i) (in_now i) (in_now' i)).2 →
  match e with
  | ConnClose c => RemoteAddr c = RemoteAddr (mConn (in_msg i))
  | ConnWrite c bytes =>
      RemoteAddr c = RemoteAddr (mConn (in_msg i))
      ∨ (mType (in_msg i) = NewMessage ∧ bytes = mText (in_msg i))
  | LogPrintf _ => True
  end.
Proof.
  intros He. revert e He. apply Forall_forall.
  destruct i as [[ty c text] now now']. simpl.
  pose proof (exec_keyed tr (RemoteAddr c)) as Hk.
  unfold serverStep, debounceStage, broadcastStage, setClients, isBanned. simpl.
  destruct ty; simpl.
  - case_match; simpl; repeat (apply Forall_cons; split; auto).
  - repeat (apply Forall_cons; split; auto).
  - destruct (clients (exec Sprintf_f tr) !! RemoteAddr c) as [cl |] eqn:Hc.
    + specialize (Hk cl eq_refl).
      repeat (case_match; simpl); repeat (apply Forall_cons; split; auto);
        apply Forall_fmap, Forall_forall; intros [k cl1] _; simpl; auto.
    + simpl. repeat (apply Forall_cons; split; auto).
Qed.

Lemma messagesFrom_snoc (a : string) (tr : list Input) (i : Input) :
  messagesFrom a (tr ++ [i])
  = messagesFrom a tr + (if fromAddr a i && isNewMessage i then 1 else 0).
Proof. induction tr as [| j tr IH]; simpl; [lia | rewrite IH; lia]. Qed.

Lemma messagesFrom_nonneg (a : string) (tr : list Input) : 0 <= messagesFrom a tr.
Proof. induction tr as [| j tr IH]; simpl; [lia | case_match; lia]. Qed.

Lemma exec_strikeCredit (tr : list Input) (a : string) :
  strikeCredit (exec Sprintf_f tr) a <= messagesFrom a tr.
Proof.
  induction tr as [| j tr IH] using rev_ind; [done |].
  rewrite messagesFrom_snoc. unfold exec. rewrite exec_from_snoc.
  fold (exec Sprintf_f tr).
  assert (0 <= (if fromAddr a j && isNewMessage j then 1 else 0)) as Hnn
    by (case_match; lia).
  destruct (decide (a = RemoteAddr (mConn (in_msg j)))) as [-> | Hne].
  2: { destruct (step_other (exec Sprintf_f tr) j a Hne) as [E1 E2].
       unfold strikeCredit in *. rewrite E1, E2. lia. }
  pose proof (exec_strikesBounded Sprintf_f tr (RemoteAddr (mConn (in_msg j)))) as Hsb.
  pose proof (exec_separated Sprintf_f tr (RemoteAddr (mConn (in_msg j)))) as Hsep.
  pose proof (messagesFrom_nonneg (RemoteAddr (mConn (in_msg j))) tr) as H0.
  unfold fromAddr, isNewMessage in *. rewrite bool_decide_eq_true_2 in * by done.
  destruct j as [[ty c text] now now']. simpl in *.
  unfold strikeCredit in *.
  unfold step, serverStep, debounceStage, broadcastStage, setClients, isBanned. simpl.
  destruct (bannedClients (exec Sprintf_f tr) !! RemoteAddr c) as [b |] eqn:Hb.
  - rewrite bool_decide_eq_true_2 by (by eexists).
    destruct (clients (exec Sprintf_f tr) !! RemoteAddr c) as [cl |] eqn:Hc.
    { specialize (Hsep (mk_is_Some _ _ eq_refl)). done. }
    destruct ty; simpl; rewrite ?Hb; lia.
  - rewrite bool_decide_eq_false_2 by (by intros [? ?]).
    destruct ty; simpl.
    + rewrite Hb, lookup_insert_eq. simpl. lia.
    + rewrite Hb, lookup_delete_eq. lia.
    + destruct (clients (exec Sprintf_f tr) !! RemoteAddr c) as [cl |] eqn:Hc;
        [| simpl; rewrite Hb, Hc; lia].
      specialize (Hsb cl eq_refl).
      assert (wrap_int (Strikes cl + 1) = Strikes cl + 1) as Hw.
      { apply wrap_int_small. change (2 ^ 63) with 9223372036854775808. lia. }
      destruct (TimedOut cl) eqn:Ht;
        [destruct (time.Seconds_ge _ _) eqn:Hge |]; simpl;
        try (destruct (time.Seconds_lt _ _) eqn:Hlt; simpl;
             [rewrite Hw; destruct (3 <=? _) eqn:H3; simpl;
              [apply Z.leb_le in H3 |] |]);
        rewrite ?Hb, ?Hc, ?lookup_insert_eq, ?lookup_delete_eq; simpl; lia.
Qed.

(** X9: strikes and bans cost messages: a record never holds more strikes
    than the history has [NewMessage] inputs from its address, and an
    address is banned only after at least three of them. *)
Theorem three_messages_per_ban (tr : list Input) (a : string) :
  (∀ cl : Client, clients (exec Sprintf_f tr) !! a = Some cl →
                  Strikes cl <= messagesFrom a tr) ∧
  (is_Some (bannedClients (exec Sprintf_f tr) !! a) → 3 <= messagesFrom a tr).
Proof.
  pose proof (exec_strikeCredit tr a) as H. unfold strikeCredit in H.
  split.
  - intros cl Hcl. rewrite Hcl in H.
    destruct (bannedClients (exec Sprintf_f tr) !! a) eqn:Hb; [| done].
    pose proof (exec_separated Sprintf_f tr a (mk_is_Some _ _ Hcl)). congruence.
  - intros [b Hb]. by rewrite Hb in H.
Qed.

(** X10: a new [ClientConnected] from an address that is not banned wipes
    what the address had: whatever record was there (timed out, two strikes),
    the old socket is neither closed nor written to, and the next message
    from the new socket is broadcast and leaves a record without strikes. *)
Theorem reconnect_wipes_the_record (st : ServerState) (c : net_Conn) (text : string)
    (n n' now now' : time.Reading) :
  isBanned st (RemoteAddr c) = false →
  time.afterUnixEpoch now →
  let r1 := serverStep Sprintf_f st (mkMessage ClientConnected c "") n n' in
  let r2 := serverStep Sprintf_f r1.1 (mkMessage NewMessage c text) now now' in
  r1.2 = [ConnWrite c "Welcome to the box";
          LogPrintf ("Client " +:+ RemoteAddr c +:+ " connected")] ∧
  clients r2.1 !! RemoteAddr c
  = Some {| Conn := c; LastMessage := time.Now now'; TimedOut := false; Strikes := 0 |} ∧
  bannedClients r2.1 = bannedClients st ∧
  ConnWrite c text ∈ r2.2.
Proof.
  intros Hb Hnow. cbv zeta.
  assert (serverStep Sprintf_f st (mkMessage ClientConnected c "") n n'
          = (setClients st
               (<[RemoteAddr c := {| Conn := c; LastMessage := time.zero;
                                     TimedOut := false; Strikes := 0 |}]> (clients st)),
             [ConnWrite c "Welcome to the box";
              LogPrintf ("Client " +:+ RemoteAddr c +:+ " connected")])) as E.
  { unfold serverStep. simpl. by rewrite Hb. }
  rewrite E. cbn [fst snd]. split; [done |].
  unfold serverStep. simpl. rewrite lookup_insert_eq. simpl.
  unfold debounceStage. rewrite (Sub_zero now Hnow).
  pose proof (broadcastStage_spec
                (setClients st
                   (<[RemoteAddr c := {| Conn := c; LastMessage := time.zero;
                                         TimedOut := false; Strikes := 0 |}]> (clients st)))
                (RemoteAddr c)
                {| Conn := c; LastMessage := time.zero; TimedOut := false; Strikes := 0 |}
                text now') as (E1 & E2 & E3).
  cbv zeta in *. rewrite E1, E2, E3. split; [| split; [done |]].
  - by rewrite lookup_insert_eq.
  - apply elem_of_cons. right. apply broadcast_writes_mem.
    exists (RemoteAddr c),
      {| Conn := c; LastMessage := time.Now now'; TimedOut := false; Strikes := 0 |}.
    split; [| done]. rewrite E1. by rewrite lookup_insert_eq.
Qed.

End Interplay.

(** ** The reader and the acceptor *)

Lemma length_overwrite (buffer data : list Ascii.ascii) :
  length (overwrite buffer data) = length buffer.
Proof.
  unfold overwrite. rewrite length_app, length_take, length_drop. lia.
Qed.

Lemma take_overwrite (buffer data : list Ascii.ascii) :
  (length data ≤ length buffer)%nat →
  take (length data) (overwrite buffer data) = data.
Proof.
  intros H. unfold overwrite. rewrite (take_ge data) by done.
  by rewrite take_app_length.
Qed.

Lemma sent_app (l1 l2 : list Action) : sent (l1 ++ l2) = sent l1 ++ sent l2.
Proof. unfold sent. apply omap_app. Qed.

Lemma sent_farewell (conn : net_Conn) (err : error) :
  sent (farewell conn err) = [disconnectedOf conn].
Proof. by destruct err. Qed.


(** The loop under the contract of [Read], for any buffer of the size. *)
Lemma handleClient_loop_contract (conn : net_Conn) (reads : list ReadResult)
    (buffer : list Ascii.ascii) :
  Forall (readContract (length buffer)) reads →
  handleClient_loop conn buffer reads
  = ((Send ∘ newMessageOf conn <$> goodReads reads)
       ++ match reads !! length (goodReads reads) with
          | Some r => match rr_err r with Some err => farewell conn err | None => [] end
          | None => []
          end,
     if decide (length (goodReads reads) = length reads) then Blocked else Returned).
Proof.
  revert buffer. induction reads as [| r reads IH]; intros buffer Hc; [done |].
  apply Forall_cons in Hc as [[Hn Hlen] Hc]. simpl.
  destruct (rr_err r) as [[| e] |] eqn:Herr; simpl.
  - by rewrite Herr.
  - by rewrite Herr.
  - rewrite length_overwrite.
    rewrite bool_decide_eq_true_2 by lia.
    rewrite IH by (by rewrite length_overwrite). simpl.
    rewrite Hn, Nat2Z.id, take_overwrite by done.
    f_equal. repeat case_decide; try done; lia.
Qed.

(** X12: when every read keeps the contract of [io.Reader] (the count is
    the number of bytes delivered, at most 256), the reader never panics and
    sends exactly one [NewMessage] per successful read before the first
    failing one, in order, whose text is the bytes of that read: no byte of
    an earlier read shows up again, and bytes that come with an error are
    not sent.  After the first failing read it sends [ClientDisconnected]. *)
Theorem reader_delivers_what_it_reads (conn : net_Conn) (reads : list ReadResult) :
  Forall (readContract bufferSize) reads →
  sent (handleClient conn reads).1
  = (newMessageOf conn <$> goodReads reads)
      ++ (if decide (length (goodReads reads) = length reads) then []
          else [disconnectedOf conn]) ∧
  (handleClient conn reads).2
  = (if decide (length (goodReads reads) = length reads) then Blocked else Returned) ∧
  ∀ m : Message, m ∈ sent (handleClient conn reads).1 →
                 (String.length (mText m) ≤ bufferSize)%nat.
Proof.
  intros Hc. unfold handleClient.
  assert (length (replicate bufferSize Ascii.zero) = bufferSize) as Hlen
    by apply length_replicate.
  rewrite handleClient_loop_contract by (by rewrite Hlen).
  cbn [fst snd].
  assert (∀ l : list ReadResult, sent (Send ∘ newMessageOf conn <$> l)
                                 = newMessageOf conn <$> l) as Hsent.
  { unfold sent. induction l as [| x l IHl]; simpl; [done | by f_equal]. }
  assert (sent ((Send ∘ newMessageOf conn <$> goodReads reads)
                  ++ match reads !! length (goodReads reads) with
                     | Some r => match rr_err r with
                                 | Some err => farewell conn err
                                 | None => []
                                 end
                     | None => []
                     end)
          = (newMessageOf conn <$> goodReads reads)
              ++ (if decide (length (goodReads reads) = length reads) then []
                  else [disconnectedOf conn])) as E.
  { rewrite sent_app, Hsent. f_equal.
    clear Hc. induction reads as [| r reads IH]; [done |]. simpl.
    destruct (rr_err r) as [err |] eqn:Herr; simpl.
    - rewrite Herr. rewrite sent_farewell. by case_decide.
    - rewrite IH. repeat case_decide; try done; lia. }
  split; [done |]. split; [done |].
  intros m Hm. rewrite E in Hm. apply elem_of_app in Hm as [Hm | Hm].
  - apply list_elem_of_fmap in Hm as (r & -> & Hr). simpl.
    assert (r ∈ reads) as Hin.
    { clear -Hr. induction reads as [| x reads IH]; simpl in Hr;
        [by apply elem_of_nil in Hr |].
      destruct (rr_err x); [by apply elem_of_nil in Hr |].
      apply elem_of_cons in Hr as [-> | Hr]; [left | right; auto]. }
    rewrite Forall_forall in Hc. destruct (Hc r Hin) as [_ Hl].
    clear -Hl. revert Hl. generalize (rr_bytes r) bufferSize. intros l.
    induction l as [| x l IH]; intros n Hl; simpl in *; [lia |].
    destruct n; [lia |]. specialize (IH n). lia.
  - case_decide; [by apply elem_of_nil in Hm |].
    apply list_elem_of_singleton in Hm. subst m. simpl. lia.
Qed.

(** X13: a reader stops at the first failing read: what [Read] would return
    afterwards has no influence on what the reader does. *)
Theorem reader_stops_at_first_error (conn : net_Conn) (before after : list ReadResult)
    (bad : ReadResult) :
  rr_err bad ≠ None →
  handleClient conn (before ++ bad :: after) = handleClient conn (before ++ [bad]).
Proof.
  intros Hbad. unfold handleClient. generalize (replicate bufferSize Ascii.zero).
  induction before as [| r before IH]; intros buffer; simpl.
  - destruct (rr_err bad) as [[| e] |]; done.
  - destruct (rr_err r) as [[| e] |]; try done.
    case_match; [| done]. by rewrite IH.
Qed.




(** ** Histories *)

Section Histories.

Variable Sprintf_f : Z -> string.

Lemma step_keeps_absent (st : ServerState) (j : Input) (a : string) :
  clients st !! a = None →
  (RemoteAddr (mConn (in_msg j)) = a → mType (in_msg j) ≠ ClientConnected) →
  clients (step Sprintf_f st j) !! a = None.
Proof.
  intros Hn Hty.
  destruct (decide (a = RemoteAddr (mConn (in_msg j)))) as [-> | Hne].
  - specialize (Hty eq_refl). destruct j as [[ty c text] now now']. simpl in *.
    unfold step, serverStep, setClients. simpl.
    destruct ty; simpl; [done | by rewrite lookup_delete_eq | by rewrite Hn].
  - destruct (step_other Sprintf_f st j a Hne) as [-> _]. done.
Qed.

Lemma exec_from_keeps_absent (st : ServerState) (tr : list Input) (a : string) :
  clients st !! a = None → noReconnect a tr →
  clients (exec_from Sprintf_f st tr) !! a = None.
Proof.
  revert st. induction tr as [| j tr IH]; intros st Hn Hnr; [done |].
  rewrite exec_from_cons. apply IH.
  - apply step_keeps_absent; [done |]. apply Hnr. by left.
  - intros k Hk. apply Hnr. by right.
Qed.

(** X15: once a [ClientDisconnected] from an address has been handled, the
    address has no record until a [ClientConnected] from it arrives,
    whatever else the loop receives in between. *)
Theorem disconnect_lasts_until_reconnect (st : ServerState) (d : Input)
    (tr : list Input) :
  mType (in_msg d) = ClientDisconnected →
  noReconnect (RemoteAddr (mConn (in_msg d))) tr →
  clients (exec_from Sprintf_f st (d :: tr)) !! RemoteAddr (mConn (in_msg d)) = None.
Proof.
  intros Hty Hnr. rewrite exec_from_cons. apply exec_from_keeps_absent; [| done].
  destruct d as [[ty c text] now now']. simpl in *. subst ty.
  unfold step, serverStep, setClients. simpl. apply lookup_delete_eq.
Qed.

Lemma handleClient_loop_returned (conn : net_Conn) (reads : list ReadResult)
    (buffer : list Ascii.ascii) :
  (handleClient_loop conn buffer reads).2 = Returned →
  ∃ msgs : list Message,
    sent (handleClient_loop conn buffer reads).1 = msgs ++ [disconnectedOf conn].
Proof.
  revert buffer. induction reads as [| r reads IH]; intros buffer; simpl; [done |].
  destruct (rr_err r) as [[| e] |]; simpl.
  - intros _. by exists [].
  - intros _. by exists [].
  - case_match; simpl; [| done]. intros Hr.
    destruct (IH _ Hr) as [msgs E]. eexists (_ :: msgs).
    unfold sent in *. simpl. by rewrite E.
Qed.

(** X16: reader and server together: when a reader has returned and the
    server has handled everything the reader sent, the reader's address has
    no record, and it stays so until a [ClientConnected] from that address
    arrives. *)
Theorem reader_exit_clears_the_record (st : ServerState) (conn : net_Conn)
    (reads : list ReadResult) (clocks : list (time.Reading * time.Reading))
    (tr : list Input) :
  (handleClient conn reads).2 = Returned →
  length clocks = length (sent (handleClient conn reads).1) →
  noReconnect (RemoteAddr conn) tr →
  clients (exec_from Sprintf_f st
             (withClocks (sent (handleClient conn reads).1) clocks ++ tr))
    !! RemoteAddr conn = None.
Proof.
  intros Hr Hlen Hnr.
  destruct (handleClient_loop_returned conn reads _ Hr) as [msgs E].
  fold (handleClient conn reads) in E. rewrite E in *.
  unfold withClocks. rewrite zip_with_app_l.
  rewrite length_app in Hlen. simpl in Hlen.
  destruct (drop (length msgs) clocks) as [| ck rest] eqn:Hd.
  { apply (f_equal length) in Hd. rewrite length_drop in Hd. simpl in Hd. lia. }
  simpl. rewrite <- app_assoc. simpl.
  rewrite exec_from_app, exec_from_cons.
  apply exec_from_keeps_absent; [| done].
  unfold step, serverStep, setClients. simpl. apply lookup_delete_eq.
Qed.

(** X17: a client that keeps [MessageDebounce] between its messages is
    never struck: while its inputs are [polite], its record keeps its
    strikes and stays clear of the timeout, its ban entry does not change,
    and each of its messages is written to its connection, whatever the
    other addresses send in between. *)
Theorem polite_client_is_never_struck (st : ServerState) (tr : list Input)
    (a : string) (cl : Client) :
  clients st !! a = Some cl →
  TimedOut cl = false →
  polite a (LastMessage cl) tr →
  (∃ cl' : Client,
     clients (exec_from Sprintf_f st tr) !! a = Some cl' ∧
     Conn cl' = Conn cl ∧ Strikes cl' = Strikes cl ∧ TimedOut cl' = false) ∧
  bannedClients (exec_from Sprintf_f st tr) !! a = bannedClients st !! a ∧
  ∀ i : Input, i ∈ tr → RemoteAddr (mConn (in_msg i)) = a →
               ConnWrite (Conn cl) (mText (in_msg i)) ∈ effects_from Sprintf_f st tr.
Proof.
  revert st cl. induction tr as [| i tr IH]; intros st cl Hcl Ht Hp.
  - simpl. split; [by exists cl |]. split; [done |].
    intros i Hi. by apply elem_of_nil in Hi.
  - simpl in Hp. rewrite exec_from_cons. simpl effects_from.
    unfold fromAddr in Hp. case_bool_decide as Ha.
    + destruct Hp as (Hty & Hlt & Hp).
      destruct i as [[ty c text] now now']. simpl in *. subst ty a.
      assert (serverStep Sprintf_f st (mkMessage NewMessage c text) now now'
              = broadcastStage st (RemoteAddr c) cl text now') as E.
      { unfold serverStep. simpl. rewrite Hcl, Ht. unfold debounceStage. by rewrite Hlt. }
      pose proof (broadcastStage_spec st (RemoteAddr c) cl text now') as (E1 & E2 & E3).
      cbv zeta in E1, E2, E3.
      destruct (IH (step Sprintf_f st (mkInput (mkMessage NewMessage c text) now now'))
                  (setLastMessage cl (time.Now now'))) as ((cl' & Hcl' & Hrest) & Hb & Hw).
      { unfold step. simpl. rewrite E, E1. apply lookup_insert_eq. }
      { done. }
      { done. }
      split; [by exists cl' |]. split.
      * rewrite Hb. unfold step. simpl. by rewrite E, E2.
      * intros i Hi Hia. apply elem_of_app.
        apply elem_of_cons in Hi as [-> | Hi].
        -- left. simpl. rewrite E, E3. apply elem_of_cons. right.
           apply broadcast_writes_mem.
           exists (RemoteAddr c), (setLastMessage cl (time.Now now')).
           split; [| done]. rewrite E1. apply lookup_insert_eq.
        -- right. by apply Hw.
    + assert (a ≠ RemoteAddr (mConn (in_msg i))) as Hne by congruence.
      destruct (step_other Sprintf_f st i a Hne) as [E1 E2].
      destruct (IH (step Sprintf_f st i) cl) as (Hrec & Hb & Hw); [by rewrite E1 | done..|].
      split; [done |]. split; [by rewrite Hb |].
      intros k Hk Hka. apply elem_of_app.
      apply elem_of_cons in Hk as [-> | Hk]; [done |].
      right. by apply Hw.
Qed.

(** The record under the sender's address after a [NewMessage], by cases. *)
Lemma step_newmessage (st : ServerState) (m : Input) (cl : Client) :
  mType (in_msg m) = NewMessage →
  clients st !! RemoteAddr (mConn (in_msg m)) = Some cl →
  let p := time.Sub (time.Now (in_now m)) (LastMessage cl) in
  clients (step Sprintf_f st m) !! RemoteAddr (mConn (in_msg m))
  = if TimedOut cl && negb (time.Seconds_ge p TimeoutDuration) then Some cl
    else if time.Seconds_lt p MessageDebounce then
      if 3 <=? wrap_int (Strikes cl + 1) then None
      else Some {| Conn := Conn cl; LastMessage := time.Now (in_now' m);
                   TimedOut := true; Strikes := wrap_int (Strikes cl + 1) |}
    else Some {| Conn := Conn cl; LastMessage := time.Now (in_now' m);
                 TimedOut := false; Strikes := Strikes cl |}.
Proof.
  destruct m as [[ty c text] now now']. simpl. intros -> Hcl.
  unfold step, serverStep, debounceStage, broadcastStage, setClients. simpl.
  rewrite Hcl.
  destruct (TimedOut cl) eqn:Ht;
    [destruct (time.Seconds_ge _ TimeoutDuration) eqn:Hge |]; simpl; try done;
    (destruct (time.Seconds_lt _ MessageDebounce) eqn:Hlt; simpl;
     [destruct (3 <=? _) eqn:H3; simpl |]);
    rewrite ?lookup_insert_eq, ?lookup_delete_eq; try done.
  destruct cl; simpl in *; by subst.
Qed.

Lemma saturate_lower (b x : Z) :
  0 <= b <= time.maxDuration → b <= time.saturate x → b <= x.
Proof.
  unfold time.saturate.
  assert (time.minDuration = -9223372036854775808) as -> by reflexivity.
  assert (time.maxDuration = 9223372036854775807) as -> by reflexivity.
  intros Hb.
  destruct (Z.ltb_spec x (-9223372036854775808)); [lia |].
  destruct (Z.ltb_spec 9223372036854775807 x); lia.
Qed.

Lemma not_debounced_mono (n r : time.Reading) :
  time.Seconds_lt (time.Sub (time.Now n) (time.Now r)) MessageDebounce = false →
  MessageDebounce * time.Second <= time.r_mono n - time.r_mono r.
Proof.
  unfold time.Seconds_lt. intros H. apply Z.ltb_ge in H.
  apply saturate_lower; [| done].
  assert (time.maxDuration = 9223372036854775807) as -> by reflexivity.
  assert (MessageDebounce * time.Second = 1000000000) as -> by reflexivity. lia.
Qed.

Lemma timeout_over_mono (n r : time.Reading) :
  time.Seconds_ge (time.Sub (time.Now n) (time.Now r)) TimeoutDuration = true →
  TimeoutDuration * time.Second <= time.r_mono n - time.r_mono r.
Proof.
  unfold time.Seconds_ge. intros H. apply Z.leb_le in H.
  apply saturate_lower; [| done].
  assert (time.maxDuration = 9223372036854775807) as -> by reflexivity.
  assert (TimeoutDuration * time.Second = 5000000000) as -> by reflexivity. lia.
Qed.

Lemma step_stampedBetween (st : ServerState) (m : Input) (a : string) (lo hi : Z) :
  stampedBetween a lo hi st → lo <= hi →
  (RemoteAddr (mConn (in_msg m)) = a → mType (in_msg m) ≠ ClientConnected) →
  hi <= time.r_mono (in_now' m) →
  stampedBetween a lo (time.r_mono (in_now' m)) (step Sprintf_f st m).
Proof.
  intros Hinv Hlh Hty Hhi cl' Hcl'.
  destruct (decide (a = RemoteAddr (mConn (in_msg m)))) as [-> | Hne].
  - specialize (Hty eq_refl).
    destruct (step_own_record Sprintf_f _ _ _ Hcl')
      as [(? & _) | [(? & _) | (Hnm & cl & Hcl & _)]]; try done.
    rewrite (step_newmessage st m cl Hnm Hcl) in Hcl'. cbv zeta in Hcl'.
    destruct (Hinv cl Hcl) as (r & Hr & Hlo).
    repeat case_match; simplify_eq; simpl.
    + exists r. split; [done | lia].
    + exists (in_now' m). split; [done | lia].
    + exists (in_now' m). split; [done | lia].
  - destruct (step_other Sprintf_f st m a Hne) as [E _]. rewrite E in Hcl'.
    destruct (Hinv cl' Hcl') as (r & Hr & Hlo). exists r. split; [done | lia].
Qed.

Lemma spaced_broadcast (st : ServerState) (tr : list Input) (i : Input)
    (a : string) (lo hi : Z) (cl_i : Client) :
  stampedBetween a lo hi st → lo <= hi →
  noReconnect a tr → clockOrderedFrom hi (tr ++ [i]) →
  RemoteAddr (mConn (in_msg i)) = a →
  clients (exec_from Sprintf_f st tr) !! a = Some cl_i →
  reachesBroadcast cl_i (time.Sub (time.Now (in_now i)) (LastMessage cl_i)) = true →
  MessageDebounce * time.Second <= time.r_mono (in_now i) - lo.
Proof.
  revert st hi. induction tr as [| m tr IH]; intros st hi Hinv Hlh Hnr Hord Ha Hcl Hrb.
  - simpl in *. destruct Hord as (H1 & _).
    destruct (Hinv cl_i Hcl) as (r & Hr & Hlo). rewrite Hr in Hrb.
    unfold reachesBroadcast in Hrb. apply andb_true_iff in Hrb as [_ Hrb].
    apply negb_true_iff in Hrb. apply not_debounced_mono in Hrb. lia.
  - simpl in Hord. destruct Hord as (H1 & H2 & Hord).
    rewrite exec_from_cons in Hcl.
    apply (IH (step Sprintf_f st m) (time.r_mono (in_now' m))); try done.
    + apply (step_stampedBetween st m a lo hi); try done; [| lia].
      apply Hnr. by left.
    + lia.
    + intros k Hk. apply Hnr. by right.
Qed.

(** X18: the debounce interval holds between any two broadcast messages of
    one record.  When the monotonic clock does not run backwards, and a
    [NewMessage] from an address reaches the broadcast stage, and later,
    without a [ClientConnected] from that address in between, another one
    does, then the second was read at least [MessageDebounce] after the time
    stamp of the first. *)
Theorem broadcasts_are_spaced (st : ServerState) (j i : Input) (tr : list Input)
    (cl_j cl_i : Client) :
  mType (in_msg j) = NewMessage →
  mType (in_msg i) = NewMessage →
  RemoteAddr (mConn (in_msg i)) = RemoteAddr (mConn (in_msg j)) →
  noReconnect (RemoteAddr (mConn (in_msg j))) tr →
  clockOrderedFrom (time.r_mono (in_now j)) (j :: tr ++ [i]) →
  clients st !! RemoteAddr (mConn (in_msg j)) = Some cl_j →
  reachesBroadcast cl_j (time.Sub (time.Now (in_now j)) (LastMessage cl_j)) = true →
  clients (exec_from Sprintf_f st (j :: tr)) !! RemoteAddr (mConn (in_msg j)) = Some cl_i →
  reachesBroadcast cl_i (time.Sub (time.Now (in_now i)) (LastMessage cl_i)) = true →
  MessageDebounce * time.Second <= time.r_mono (in_now i) - time.r_mono (in_now' j).
Proof.
  intros Hty Htyi Ha Hnr Hord Hclj Hrbj Hcli Hrbi.
  simpl in Hord. destruct Hord as (_ & Hjj & Hord).
  rewrite exec_from_cons in Hcli.
  apply (spaced_broadcast (step Sprintf_f st j) tr i (RemoteAddr (mConn (in_msg j)))
           (time.r_mono (in_now' j)) (time.r_mono (in_now' j)) cl_i); try done; try lia.
  intros cl Hcl. rewrite (step_newmessage st j cl_j Hty Hclj) in Hcl. cbv zeta in Hcl.
  unfold reachesBroadcast in Hrbj. apply andb_true_iff in Hrbj as [Hs Hlt].
  apply negb_true_iff in Hlt. rewrite Hlt in Hcl.
  assert (TimedOut cl_j
          && negb (time.Seconds_ge (time.Sub (time.Now (in_now j)) (LastMessage cl_j))
                     TimeoutDuration) = false) as Hw.
  { apply orb_true_iff in Hs as [Hs | Hs].
    - apply negb_true_iff in Hs. by rewrite Hs.
    - rewrite Hs. apply andb_false_r. }
  rewrite Hw in Hcl. simplify_eq. simpl.
  exists (in_now' j). split; [done | lia].
Qed.

Lemma step_servingTimeout (st : ServerState) (m : Input) (a : string) (lo hi : Z) :
  servingTimeout a lo hi st →
  (RemoteAddr (mConn (in_msg m)) = a → mType (in_msg m) ≠ ClientConnected) →
  hi <= time.r_mono (in_now m) → time.r_mono (in_now m) <= time.r_mono (in_now' m) →
  servingTimeout a lo (time.r_mono (in_now' m)) (step Sprintf_f st m).
Proof.
  intros Hinv Hty Hhi Hmm cl' Hcl'.
  assert (0 <= TimeoutDuration * time.Second) as H5 by done.
  destruct (decide (a = RemoteAddr (mConn (in_msg m)))) as [-> | Hne].
  - specialize (Hty eq_refl).
    destruct (step_own_record Sprintf_f _ _ _ Hcl')
      as [(? & _) | [(? & _) | (Hnm & cl & Hcl & _)]]; try done.
    rewrite (step_newmessage st m cl Hnm Hcl) in Hcl'. cbv zeta in Hcl'.
    destruct (Hinv cl Hcl) as [(Ht & r & Hr & Hlo) | (Ht & Hlo)]; rewrite Ht in Hcl'.
    + rewrite Hr in Hcl'.
      destruct (time.Seconds_ge _ TimeoutDuration) eqn:Hge; simpl in Hcl'.
      * pose proof (timeout_over_mono _ _ Hge) as Hover.
        rewrite (Seconds_ge_not_lt _ Hge) in Hcl'. simplify_eq.
        right. split; [done | lia].
      * simplify_eq. left. split; [done |]. by exists r.
    + simpl in Hcl'. repeat case_match; simplify_eq.
      * left. split; [done |]. exists (in_now' m). split; [done | lia].
      * right. split; [done | lia].
  - destruct (step_other Sprintf_f st m a Hne) as [E _]. rewrite E in Hcl'.
    destruct (Hinv cl' Hcl') as [H | (Ht & Hlo)]; [by left |].
    right. split; [done | lia].
Qed.

Lemma spaced_strike (st : ServerState) (tr : list Input) (i : Input)
    (a : string) (lo hi : Z) (cl_i : Client) :
  servingTimeout a lo hi st →
  noReconnect a tr → clockOrderedFrom hi (tr ++ [i]) →
  clients (exec_from Sprintf_f st tr) !! a = Some cl_i →
  debounceViolation cl_i (time.Sub (time.Now (in_now i)) (LastMessage cl_i)) = true →
  TimeoutDuration * time.Second <= time.r_mono (in_now i) - lo.
Proof.
  revert st hi. induction tr as [| m tr IH]; intros st hi Hinv Hnr Hord Hcl Hv.
  - simpl in *. destruct Hord as (H1 & _).
    apply debounceViolation_inv in Hv as [Ht _].
    destruct (Hinv cl_i Hcl) as [(Ht' & _) | (_ & Hlo)]; [congruence | lia].
  - simpl in Hord. destruct Hord as (H1 & H2 & Hord).
    rewrite exec_from_cons in Hcl.
    apply (IH (step Sprintf_f st m) (time.r_mono (in_now' m))); try done.
    + apply (step_servingTimeout st m a lo hi); try done.
      apply Hnr. by left.
    + intros k Hk. apply Hnr. by right.
Qed.

(** X19: the timeout holds between any two strikes of one record.  When the
    monotonic clock does not run backwards, and a [NewMessage] from an
    address violates the debounce interval, and later, without a
    [ClientConnected] from that address in between, another one does, then
    the second was read at least [TimeoutDuration] after the time stamp of
    the first. *)
Theorem strikes_are_spaced (st : ServerState) (j i : Input) (tr : list Input)
    (cl_j cl_i : Client) :
  mType (in_msg j) = NewMessage →
  mType (in_msg i) = NewMessage →
  RemoteAddr (mConn (in_msg i)) = RemoteAddr (mConn (in_msg j)) →
  noReconnect (RemoteAddr (mConn (in_msg j))) tr →
  clockOrderedFrom (time.r_mono (in_now j)) (j :: tr ++ [i]) →
  clients st !! RemoteAddr (mConn (in_msg j)) = Some cl_j →
  debounceViolation cl_j (time.Sub (time.Now (in_now j)) (LastMessage cl_j)) = true →
  clients (exec_from Sprintf_f st (j :: tr)) !! RemoteAddr (mConn (in_msg j)) = Some cl_i →
  debounceViolation cl_i (time.Sub (time.Now (in_now i)) (LastMessage cl_i)) = true →
  TimeoutDuration * time.Second <= time.r_mono (in_now i) - time.r_mono (in_now' j).
Proof.
  intros Hty Htyi Ha Hnr Hord Hclj Hvj Hcli Hvi.
  simpl in Hord. destruct Hord as (_ & Hjj & Hord).
  rewrite exec_from_cons in Hcli.
  apply (spaced_strike (step Sprintf_f st j) tr i (RemoteAddr (mConn (in_msg j)))
           (time.r_mono (in_now' j)) (time.r_mono (in_now' j)) cl_i); try done.
  intros cl Hcl. rewrite (step_newmessage st j cl_j Hty Hclj) in Hcl. cbv zeta in Hcl.
  apply debounceViolation_inv in Hvj as [Ht Hlt]. rewrite Ht, Hlt in Hcl. simpl in Hcl.
  case_match; simplify_eq. left. split; [done |].
  exists (in_now' j). split; [done | lia].
Qed.

End Histories.

(** ** The sample run *)

Example sample_effects :
  effects_from Sample.Sprintf_f initial Sample.history
  = [ ConnWrite Sample.connX "Welcome to the box";
      LogPrintf "Client 203.0.113.5:40000 connected";
      ConnWrite Sample.connY "Welcome to the box";
      LogPrintf "Client 198.51.100.9:51000 connected";
      LogPrintf "Info: send message hi by 203.0.113.5:40000";
      ConnWrite Sample.connY "hi";
      ConnWrite Sample.connX "hi";
      LogPrintf "Info: timeout client 203.0.113.5:40000 for 5.000000. number strikes: 1";
      ConnWrite Sample.connX "Strike number 1. You are timed out. Wait for 5";
      LogPrintf "Info: client 203.0.113.5:40000 still banned";
      ConnWrite Sample.connX "You are timed out. Chill for 4.700005 Seconds";
      LogPrintf "Info: unban client 203.0.113.5:40000";
      LogPrintf "Info: send message final by 203.0.113.5:40000";
      ConnWrite Sample.connY "final";
      ConnWrite Sample.connX "final";
      LogPrintf "Info: timeout client 203.0.113.5:40000 for 5.000000. number strikes: 2";
      ConnWrite Sample.connX "Strike number 2. You are timed out. Wait for 5";
      LogPrintf "Info: unban client 203.0.113.5:40000";
      LogPrintf "Info: send message ok by 203.0.113.5:40000";
      ConnWrite Sample.connY "ok";
      ConnWrite Sample.connX "ok";
      ConnWrite Sample.connX "you are banned. bye bye";
      ConnClose Sample.connX ].
Proof. vm_compute. reflexivity. Qed.

(** After the whole sample history the address of [connX] is banned, and it
    stays banned when [connY] talks on; the later socket [connX'] from that
    address is closed on arrival. *)
Lemma ban_is_absorbing_witness :
  let st := exec_from Sample.Sprintf_f (Sample.after 9)
              [Sample.at_ms NewMessage Sample.connY "anyone?" 20000] in
  is_Some (bannedClients st !! "203.0.113.5:40000") ∧
  serverStep Sample.Sprintf_f st (mkMessage ClientConnected Sample.connX' "")
    (Sample.clockAt 30000000) (Sample.clockAt 30000005)
  = (st, [ConnClose Sample.connX']).
Proof.
  cbv zeta.
  destruct (ban_is_absorbing Sample.Sprintf_f (Sample.after 9)
              [Sample.at_ms NewMessage Sample.connY "anyone?" 20000]
              "203.0.113.5:40000") as [H1 H2].
  - exists true. vm_compute. reflexivity.
  - split; [exact H1 |]. apply H2. reflexivity.
Defined.

Lemma clients_apart_from_banned_witness :
  bannedClients (exec Sample.Sprintf_f Sample.history) !! "198.51.100.9:51000" = None ∧
  NoDup (map_to_list (clients (exec Sample.Sprintf_f Sample.history))).*1.
Proof.
  destruct (clients_apart_from_banned Sample.Sprintf_f Sample.history) as [H1 H2].
  split; [| exact H2].
  apply (H1 "198.51.100.9:51000"
           {| Conn := Sample.connY; LastMessage := time.zero; TimedOut := false;
              Strikes := 0 |}).
  vm_compute. reflexivity.
Defined.

(** [connY] disconnects after the sample history; a message that still
    arrives from it finds no record. *)
Lemma disconnect_cleanup_witness :
  let r := serverStep Sample.Sprintf_f (Sample.after 9)
             (mkMessage ClientDisconnected Sample.connY "")
             (Sample.clockAt 20000000) (Sample.clockAt 20000005) in
  clients r.1 !! "198.51.100.9:51000" = None ∧
  serverStep Sample.Sprintf_f r.1 (mkMessage NewMessage Sample.connY "late")
    (Sample.clockAt 20000100) (Sample.clockAt 20000105)
  = (r.1, [ConnClose Sample.connY;
           LogPrintf "Error: client with address: 198.51.100.9:51000 does not exist"]).
Proof.
  cbv zeta.
  destruct (disconnect_cleanup Sample.Sprintf_f (Sample.after 9) Sample.connY ""
              (Sample.clockAt 20000000) (Sample.clockAt 20000005))
    as (_ & _ & _ & _ & H5 & H6).
  split; [exact H5 |]. apply H6. reflexivity.
Defined.

(** The last input of the sample history: the third violation. *)
Lemma strikes_and_ban_witness :
  let r := serverStep Sample.Sprintf_f (Sample.after 8)
             (mkMessage NewMessage Sample.connX "spam")
             (Sample.clockAt 13100000) (Sample.clockAt 13100005) in
  bannedClients r.1 = <[RemoteAddr Sample.connX := true]> (bannedClients (Sample.after 8)) ∧
  clients r.1 = delete (RemoteAddr Sample.connX) (clients (Sample.after 8)) ∧
  r.2 = [ConnWrite Sample.connX "you are banned. bye bye"; ConnClose Sample.connX].
Proof.
  cbv zeta.
  destruct (strikes_and_ban Sample.Sprintf_f (Sample.after 8) Sample.connX "spam"
              (Sample.clockAt 13100000) (Sample.clockAt 13100005)) as (_ & H2 & _).
  apply (H2 (Sample.recordX 13000 false 2)).
  - vm_compute. reflexivity.
  - vm_compute. reflexivity.
  - vm_compute. discriminate.
Defined.

(** The sixth input of the sample history ends the first timeout. *)
Lemma timeout_expiry_reprocesses_witness :
  let r := serverStep Sample.Sprintf_f (Sample.after 5)
             (mkMessage NewMessage Sample.connX "final")
             (Sample.clockAt 7000000) (Sample.clockAt 7000005) in
  clients r.1 !! RemoteAddr Sample.connX = Some (Sample.recordX 7000 false 1) ∧
  ConnWrite Sample.connY "final" ∈ r.2.
Proof.
  cbv zeta.
  destruct (timeout_expiry_reprocesses Sample.Sprintf_f (Sample.after 5) Sample.connX
              "final" (Sample.clockAt 7000000) (Sample.clockAt 7000005)
              (Sample.recordX 1200 true 1)) as [_ H].
  - vm_compute. reflexivity.
  - reflexivity.
  - vm_compute. reflexivity.
  - destruct H as (_ & H2 & H3); [vm_compute; reflexivity |].
    split; [exact H2 |].
    apply (H3 "198.51.100.9:51000"
              {| Conn := Sample.connY; LastMessage := time.zero; TimedOut := false;
                 Strikes := 0 |}).
    vm_compute. reflexivity.
Defined.

(** The four cases on the sample history: inputs 4, 5, 7 and 9. *)
Lemma strike_escalation_witness :
  (serverStep Sample.Sprintf_f (Sample.after 3) (mkMessage NewMessage Sample.connX "yo")
     (Sample.clockAt 1200000) (Sample.clockAt 1200005)).2
  = [LogPrintf "Info: timeout client 203.0.113.5:40000 for 5.000000. number strikes: 1";
     ConnWrite Sample.connX "Strike number 1. You are timed out. Wait for 5"] ∧
  (serverStep Sample.Sprintf_f (Sample.after 4) (mkMessage NewMessage Sample.connX "again")
     (Sample.clockAt 1500000) (Sample.clockAt 1500005)).1
  = Sample.after 4 ∧
  (serverStep Sample.Sprintf_f (Sample.after 6) (mkMessage NewMessage Sample.connX "fast")
     (Sample.clockAt 7300000) (Sample.clockAt 7300005)).2
  = [LogPrintf "Info: timeout client 203.0.113.5:40000 for 5.000000. number strikes: 2";
     ConnWrite Sample.connX "Strike number 2. You are timed out. Wait for 5"] ∧
  (serverStep Sample.Sprintf_f (Sample.after 8) (mkMessage NewMessage Sample.connX "spam")
     (Sample.clockAt 13100000) (Sample.clockAt 13100005)).2
  = [ConnWrite Sample.connX "you are banned. bye bye"; ConnClose Sample.connX].
Proof.
  split; [| split; [| split]].
  - destruct (strike_escalation Sample.Sprintf_f (Sample.after 3) Sample.connX "yo"
                (Sample.clockAt 1200000) (Sample.clockAt 1200005)
                (Sample.recordX 1000 false 0)) as (H & _);
      [vm_compute; reflexivity |].
    destruct H as (_ & _ & H); [vm_compute; reflexivity | reflexivity |]. exact H.
  - destruct (strike_escalation Sample.Sprintf_f (Sample.after 4) Sample.connX "again"
                (Sample.clockAt 1500000) (Sample.clockAt 1500005)
                (Sample.recordX 1200 true 1)) as (_ & H & _);
      [vm_compute; reflexivity |].
    destruct H as (H & _); [reflexivity | vm_compute; reflexivity |]. exact H.
  - destruct (strike_escalation Sample.Sprintf_f (Sample.after 6) Sample.connX "fast"
                (Sample.clockAt 7300000) (Sample.clockAt 7300005)
                (Sample.recordX 7000 false 1)) as (_ & _ & H & _);
      [vm_compute; reflexivity |].
    destruct H as (_ & _ & H); [vm_compute; reflexivity | reflexivity |]. exact H.
  - destruct (strike_escalation Sample.Sprintf_f (Sample.after 8) Sample.connX "spam"
                (Sample.clockAt 13100000) (Sample.clockAt 13100005)
                (Sample.recordX 13000 false 2)) as (_ & _ & _ & H);
      [vm_compute; reflexivity |].
    destruct H as (_ & _ & H); [vm_compute; reflexivity | reflexivity |]. exact H.
Defined.

(** The third input of the sample history: the first message of [connX]. *)
Lemma first_message_accepted_witness :
  let r := serverStep Sample.Sprintf_f (Sample.after 2)
             (mkMessage NewMessage Sample.connX "hi")
             (Sample.clockAt 1000000) (Sample.clockAt 1000005) in
  clients r.1 !! RemoteAddr Sample.connX = Some (Sample.recordX 1000 false 0) ∧
  ConnWrite Sample.connX "hi" ∈ r.2.
Proof.
  cbv zeta.
  destruct (first_message_accepted Sample.Sprintf_f (Sample.after 2) Sample.connX "hi"
              (Sample.clockAt 1000000) (Sample.clockAt 1000005)) as [_ H].
  destruct (H {| Conn := Sample.connX; LastMessage := time.zero; TimedOut := false;
                 Strikes := 0 |}) as (_ & H2 & _ & H4).
  - vm_compute. reflexivity.
  - reflexivity.
  - reflexivity.
  - vm_compute. discriminate.
  - split; [exact H2 | exact H4].
Defined.

(** The eighth input of the sample history reaches both clients. *)
Lemma accepted_message_is_broadcast_witness :
  let r := serverStep Sample.Sprintf_f (Sample.after 7)
             (mkMessage NewMessage Sample.connX "ok")
             (Sample.clockAt 13000000) (Sample.clockAt 13000005) in
  clients r.1
  = <[RemoteAddr Sample.connX := Sample.recordX 13000 false 2]> (clients (Sample.after 7)) ∧
  ConnWrite Sample.connX "ok" ∈ r.2.
Proof.
  cbv zeta.
  destruct (accepted_message_is_broadcast Sample.Sprintf_f (Sample.after 7) Sample.connX
              "ok" (Sample.clockAt 13000000) (Sample.clockAt 13000005)
              (Sample.recordX 7300 true 2)) as (H1 & _ & _ & _ & H5).
  - vm_compute. reflexivity.
  - right. vm_compute. reflexivity.
  - vm_compute. reflexivity.
  - split; [exact H1 | exact H5].
Defined.

(** The fifth input of the sample history arrives 0.3 seconds into the
    timeout. *)
Lemma still_timed_out_frame_witness :
  serverStep Sample.Sprintf_f (Sample.after 4) (mkMessage NewMessage Sample.connX "again")
    (Sample.clockAt 1500000) (Sample.clockAt 1500005)
  = (Sample.after 4,
     [LogPrintf "Info: client 203.0.113.5:40000 still banned";
      ConnWrite Sample.connX "You are timed out. Chill for 4.700005 Seconds"]).
Proof.
  apply (still_timed_out_frame Sample.Sprintf_f (Sample.after 4) Sample.connX "again"
           (Sample.clockAt 1500000) (Sample.clockAt 1500005) (Sample.recordX 1200 true 1)).
  - vm_compute. reflexivity.
  - reflexivity.
  - vm_compute. reflexivity.
Defined.

(** After five inputs of the sample history [connX] is timed out: the
    timeout began at one of them, whose second reading is the time stamp. *)
Lemma timeout_and_strike_invariants_witness :
  (∃ (tr1 : list Input) (i : Input) (tr2 : list Input),
     take 5 Sample.history = tr1 ++ i :: tr2 ∧
     LastMessage (Sample.recordX 1200 true 1) = time.Now (in_now' i)) ∧
  0 <= Strikes (Sample.recordX 1200 true 1) <= 2.
Proof.
  destruct (timeout_and_strike_invariants Sample.Sprintf_f (take 5 Sample.history))
    as (H1 & _ & H3).
  split.
  - destruct (H1 "203.0.113.5:40000" (Sample.recordX 1200 true 1))
      as (tr1 & i & tr2 & E & _ & _ & _ & Hlm & _).
    + vm_compute. reflexivity.
    + reflexivity.
    + exists tr1, i, tr2. split; [exact E | exact Hlm].
  - apply (H3 "203.0.113.5:40000"). vm_compute. reflexivity.
Defined.

(** ** The further properties on the sample run *)

(** The fifth input, from [connX], leaves the entries of [connY] alone. *)
Lemma other_addresses_untouched_witness :
  let i := Sample.at_ms NewMessage Sample.connX "again" 1500 in
  clients (step Sample.Sprintf_f (Sample.after 4) i) !! "198.51.100.9:51000"
  = clients (Sample.after 4) !! "198.51.100.9:51000" ∧
  bannedClients (step Sample.Sprintf_f (Sample.after 4) i) !! "198.51.100.9:51000"
  = bannedClients (Sample.after 4) !! "198.51.100.9:51000".
Proof.
  cbv zeta.
  apply (other_addresses_untouched Sample.Sprintf_f (Sample.after 4)
           (Sample.at_ms NewMessage Sample.connX "again" 1500) "198.51.100.9:51000").
  simpl. discriminate.
Defined.

Lemma different_addresses_commute_witness :
  let i := Sample.at_ms NewMessage Sample.connX "hi" 1000 in
  let j := Sample.at_ms NewMessage Sample.connY "hello" 1001 in
  step Sample.Sprintf_f (step Sample.Sprintf_f (Sample.after 2) i) j
  = step Sample.Sprintf_f (step Sample.Sprintf_f (Sample.after 2) j) i.
Proof.
  cbv zeta.
  apply (different_addresses_commute Sample.Sprintf_f (Sample.after 2)
           (Sample.at_ms NewMessage Sample.connX "hi" 1000)
           (Sample.at_ms NewMessage Sample.connY "hello" 1001)).
  simpl. discriminate.
Defined.

(** Both sockets of the address of [connX] report the end of their stream. *)
Lemma disconnect_idempotent_witness :
  let i := Sample.at_ms ClientDisconnected Sample.connX "" 2000 in
  let j := Sample.at_ms ClientDisconnected Sample.connX' "" 2001 in
  step Sample.Sprintf_f (step Sample.Sprintf_f (Sample.after 3) i) j
  = step Sample.Sprintf_f (Sample.after 3) i.
Proof.
  cbv zeta.
  apply (disconnect_idempotent Sample.Sprintf_f (Sample.after 3)
           (Sample.at_ms ClientDisconnected Sample.connX "" 2000)
           (Sample.at_ms ClientDisconnected Sample.connX' "" 2001));
    reflexivity.
Defined.

(** After the sample history [connX] is banned: what it still sends is
    dropped. *)
Lemma banned_address_is_shut_out_witness :
  let i := Sample.at_ms NewMessage Sample.connX "please" 14000 in
  step Sample.Sprintf_f (exec Sample.Sprintf_f Sample.history) i
  = exec Sample.Sprintf_f Sample.history ∧
  (serverStep Sample.Sprintf_f (exec Sample.Sprintf_f Sample.history)
     (in_msg i) (in_now i) (in_now' i)).2
  = [ConnClose Sample.connX;
     LogPrintf "Error: client with address: 203.0.113.5:40000 does not exist"].
Proof.
  cbv zeta.
  destruct (banned_address_is_shut_out Sample.Sprintf_f Sample.history
              (Sample.at_ms NewMessage Sample.connX "please" 14000)) as [H1 H2].
  - exists true. vm_compute. reflexivity.
  - split; [exact H1 | apply H2; reflexivity].
Defined.

(** The ninth input of the sample history is the one that bans. *)
Lemma ban_only_by_escalation_witness :
  let i := Sample.at_ms NewMessage Sample.connX "spam" 13100 in
  mType (in_msg i) = NewMessage ∧ RemoteAddr (mConn (in_msg i)) = "203.0.113.5:40000" ∧
  ∃ cl : Client,
    clients (exec Sample.Sprintf_f (take 8 Sample.history)) !! "203.0.113.5:40000" = Some cl ∧
    Strikes cl = 2 ∧
    debounceViolation cl (time.Sub (time.Now (in_now i)) (LastMessage cl)) = true.
Proof.
  cbv zeta.
  apply (ban_only_by_escalation Sample.Sprintf_f (take 8 Sample.history)
           (Sample.at_ms NewMessage Sample.connX "spam" 13100) "203.0.113.5:40000").
  - vm_compute. reflexivity.
  - exists true. vm_compute. reflexivity.
Defined.

Lemma record_provenance_witness :
  ∃ (tr1 : list Input) (i : Input) (tr2 : list Input),
    take 5 Sample.history = tr1 ++ i :: tr2 ∧
    mType (in_msg i) = ClientConnected ∧
    mConn (in_msg i) = Conn (Sample.recordX 1200 true 1) ∧
    RemoteAddr (Conn (Sample.recordX 1200 true 1)) = "203.0.113.5:40000" ∧
    ∀ j : Input,
      j ∈ tr2 → RemoteAddr (mConn (in_msg j)) = "203.0.113.5:40000" →
      mType (in_msg j) = NewMessage.
Proof.
  apply (record_provenance Sample.Sprintf_f (take 5 Sample.history) "203.0.113.5:40000"
           (Sample.recordX 1200 true 1)).
  vm_compute. reflexivity.
Defined.

(** The fourth input of the sample history: from no strike to one. *)
Lemma strikes_never_forgiven_witness :
  Conn (Sample.recordX 1200 true 1) = Conn (Sample.recordX 1000 false 0) ∧
  Strikes (Sample.recordX 1000 false 0) <= Strikes (Sample.recordX 1200 true 1)
  <= Strikes (Sample.recordX 1000 false 0) + 1.
Proof.
  apply (strikes_never_forgiven Sample.Sprintf_f (take 3 Sample.history)
           (Sample.at_ms NewMessage Sample.connX "yo" 1200) "203.0.113.5:40000").
  - simpl. discriminate.
  - vm_compute. reflexivity.
  - vm_compute. reflexivity.
Defined.

(** The eighth input of the sample history writes to [connY], of another
    address: the text of the message. *)
Lemma effects_stay_with_sender_witness :
  let i := Sample.at_ms NewMessage Sample.connX "ok" 13000 in
  RemoteAddr Sample.connY = RemoteAddr (mConn (in_msg i))
  ∨ (mType (in_msg i) = NewMessage ∧ "ok" = mText (in_msg i)).
Proof.
  cbv zeta.
  apply (effects_stay_with_sender Sample.Sprintf_f (take 7 Sample.history)
           (Sample.at_ms NewMessage Sample.connX "ok" 13000)
           (ConnWrite Sample.connY "ok")).
  vm_compute. repeat constructor.
Defined.

Lemma three_messages_per_ban_witness :
  3 <= messagesFrom "203.0.113.5:40000" Sample.history.
Proof.
  destruct (three_messages_per_ban Sample.Sprintf_f Sample.history "203.0.113.5:40000")
    as [_ H].
  apply H. exists true. vm_compute. reflexivity.
Defined.

(** After five inputs [connX] is timed out with one strike; a new socket
    from its address starts afresh. *)
Lemma reconnect_wipes_the_record_witness :
  let r1 := serverStep Sample.Sprintf_f (Sample.after 5)
              (mkMessage ClientConnected Sample.connX' "")
              (Sample.clockAt 1600000) (Sample.clockAt 1600005) in
  let r2 := serverStep Sample.Sprintf_f r1.1 (mkMessage NewMessage Sample.connX' "again")
              (Sample.clockAt 1700000) (Sample.clockAt 1700005) in
  r1.2 = [ConnWrite Sample.connX' "Welcome to the box";
          LogPrintf ("Client " +:+ RemoteAddr Sample.connX' +:+ " connected")] ∧
  clients r2.1 !! RemoteAddr Sample.connX'
  = Some {| Conn := Sample.connX'; LastMessage := time.Now (Sample.clockAt 1700005);
            TimedOut := false; Strikes := 0 |} ∧
  bannedClients r2.1 = bannedClients (Sample.after 5) ∧
  ConnWrite Sample.connX' "again" ∈ r2.2.
Proof.
  apply (reconnect_wipes_the_record Sample.Sprintf_f (Sample.after 5) Sample.connX' "again"
           (Sample.clockAt 1600000) (Sample.clockAt 1600005)
           (Sample.clockAt 1700000) (Sample.clockAt 1700005)).
  - vm_compute. reflexivity.
  - vm_compute. discriminate.
Defined.

(** The reads of [connX]: two messages, then the end; the bytes that came
    with [io.EOF] and the read after it are not sent. *)
Lemma reader_delivers_what_it_reads_witness :
  sent (handleClient Sample.connX SampleIO.readsX).1
  = [ mkMessage NewMessage Sample.connX "hi"; mkMessage NewMessage Sample.connX "yo";
      mkMessage ClientDisconnected Sample.connX "" ] ∧
  (handleClient Sample.connX SampleIO.readsX).2 = Returned.
Proof.
  destruct (reader_delivers_what_it_reads Sample.connX SampleIO.readsX) as (H1 & H2 & _).
  - repeat constructor; vm_compute; discriminate.
  - split; [exact H1 | exact H2].
Defined.

Lemma reader_stops_at_first_error_witness :
  handleClient Sample.connY (SampleIO.readsY ++ [SampleIO.readOk "late"])
  = handleClient Sample.connY SampleIO.readsY.
Proof.
  apply (reader_stops_at_first_error Sample.connY [SampleIO.readOk "hello"]
           [SampleIO.readOk "late"]
           {| rr_bytes := []; rr_n := 0;
              rr_err := Some (other_error "connection reset by peer") |}).
  discriminate.
Defined.


(** [connY] disconnects after the sample history; the banned [connX'] and a
    late message of [connY] do not bring its record back. *)
Lemma disconnect_lasts_until_reconnect_witness :
  clients (exec_from Sample.Sprintf_f (Sample.after 9)
             [Sample.at_ms ClientDisconnected Sample.connY "" 20000;
              Sample.at_ms ClientConnected Sample.connX' "" 20500;
              Sample.at_ms NewMessage Sample.connY "late" 21000])
    !! "198.51.100.9:51000" = None.
Proof.
  apply (disconnect_lasts_until_reconnect Sample.Sprintf_f (Sample.after 9)
           (Sample.at_ms ClientDisconnected Sample.connY "" 20000)
           [Sample.at_ms ClientConnected Sample.connX' "" 20500;
            Sample.at_ms NewMessage Sample.connY "late" 21000]).
  - reflexivity.
  - intros k Hk Ha.
    apply elem_of_cons in Hk as [-> | Hk]; [simpl in Ha; discriminate |].
    apply elem_of_cons in Hk as [-> | Hk]; [simpl; discriminate |].
    by apply elem_of_nil in Hk.
Defined.

(** The server handles what the reader of [connY] sends: "hello", then the
    farewell. *)
Lemma reader_exit_clears_the_record_witness :
  clients (exec_from Sample.Sprintf_f (Sample.after 2)
             (withClocks (sent (handleClient Sample.connY SampleIO.readsY).1)
                [(Sample.clockAt 2000000, Sample.clockAt 2000005);
                 (Sample.clockAt 3000000, Sample.clockAt 3000005)] ++ []))
    !! RemoteAddr Sample.connY = None.
Proof.
  apply (reader_exit_clears_the_record Sample.Sprintf_f (Sample.after 2) Sample.connY
           SampleIO.readsY
           [(Sample.clockAt 2000000, Sample.clockAt 2000005);
            (Sample.clockAt 3000000, Sample.clockAt 3000005)] []).
  - reflexivity.
  - reflexivity.
  - intros k Hk. by apply elem_of_nil in Hk.
Defined.

(** [connY] in [SampleIO.chat]: both its messages come back to it. *)
Lemma polite_client_is_never_struck_witness :
  (∃ cl' : Client,
     clients (exec_from Sample.Sprintf_f (Sample.after 2) SampleIO.chat)
       !! "198.51.100.9:51000" = Some cl' ∧
     Conn cl' = Sample.connY ∧ Strikes cl' = 0 ∧ TimedOut cl' = false) ∧
  ConnWrite Sample.connY "b"
    ∈ effects_from Sample.Sprintf_f (Sample.after 2) SampleIO.chat.
Proof.
  destruct (polite_client_is_never_struck Sample.Sprintf_f (Sample.after 2) SampleIO.chat
              "198.51.100.9:51000" SampleIO.recordY) as (H1 & _ & H3).
  - vm_compute. reflexivity.
  - reflexivity.
  - vm_compute. repeat split.
  - split; [exact H1 |].
    apply (H3 (Sample.at_ms NewMessage Sample.connY "b" 2100)); [| reflexivity].
    unfold SampleIO.chat. do 2 apply list_elem_of_further. apply list_elem_of_here.
Defined.

(** Inputs 6 to 8 of the sample history: "final" and "ok" are broadcast,
    "fast" in between is a strike. *)
Lemma broadcasts_are_spaced_witness :
  MessageDebounce * time.Second
  <= time.r_mono (Sample.clockAt 13000000) - time.r_mono (Sample.clockAt 7000005).
Proof.
  apply (broadcasts_are_spaced Sample.Sprintf_f (Sample.after 5)
           (Sample.at_ms NewMessage Sample.connX "final" 7000)
           (Sample.at_ms NewMessage Sample.connX "ok" 13000)
           [Sample.at_ms NewMessage Sample.connX "fast" 7300]
           (Sample.recordX 1200 true 1) (Sample.recordX 7300 true 2)).
  - reflexivity.
  - reflexivity.
  - reflexivity.
  - intros k Hk _. apply list_elem_of_singleton in Hk. subst k. simpl. discriminate.
  - vm_compute. repeat split; discriminate.
  - vm_compute. reflexivity.
  - vm_compute. reflexivity.
  - vm_compute. reflexivity.
  - vm_compute. reflexivity.
Defined.

(** Inputs 4 to 7 of the sample history: "yo" is the first strike, "fast"
    the second. *)
Lemma strikes_are_spaced_witness :
  TimeoutDuration * time.Second
  <= time.r_mono (Sample.clockAt 7300000) - time.r_mono (Sample.clockAt 1200005).
Proof.
  apply (strikes_are_spaced Sample.Sprintf_f (Sample.after 3)
           (Sample.at_ms NewMessage Sample.connX "yo" 1200)
           (Sample.at_ms NewMessage Sample.connX "fast" 7300)
           [Sample.at_ms NewMessage Sample.connX "again" 1500;
            Sample.at_ms NewMessage Sample.connX "final" 7000]
           (Sample.recordX 1000 false 0) (Sample.recordX 7000 false 1)).
  - reflexivity.
  - reflexivity.
  - reflexivity.
  - intros k Hk _.
    apply elem_of_cons in Hk as [-> | Hk]; [simpl; discriminate |].
    apply list_elem_of_singleton in Hk. subst k. simpl. discriminate.
  - vm_compute. repeat split; discriminate.
  - vm_compute. reflexivity.
  - vm_compute. reflexivity.
  - vm_compute. reflexivity.
  - vm_compute. reflexivity.
Defined.
